(** * pdf-api: a retrieval-augmented question answering service

    Shallow embedding of [src/main.py] and [src/app.py] (two FastAPI
    applications with the same routes) and the properties of their request
    handlers: the EMPTY/READY session slot, the error statuses, the temporary
    file of an upload and the source list of an answer.

    Conventions of the embedding.
    - A handler is a function from the process state to an outcome and the
      next process state.  The module-level globals ([qa_chain],
      [current_document_info], [embeddings]) are fields of that state, with
      the temporary files that exist and the queries handed to the chain.
    - The third-party and operating-system calls (temporary file, PDF
      loader, text splitter, FAISS, Groq client, RetrievalQA, [os.unlink])
      are opaque: a handler takes their outcomes from an environment record,
      one field per call, and every one of them may raise.
    - [raise HTTPException(...)] is an outcome [Raised]; FastAPI turns it into
      a response with that status code.
    - Logging has no effect on the state and is left out.
    - A Python [str] is a [string] whose characters are code points below
      256. *)

From Stdlib Require Import String Ascii List Bool Arith ZArith QArith Lia.
From Stdlib Require Import Sorting.Sorted.
Import ListNotations.

Set Implicit Arguments.
Close Scope Q_scope.

(* ------------------------------------------------------------------ *)
(** ** Python values used by both applications *)

Module Py.

Definition str := string.
Definition bytes := string.

Definition len (s : str) : nat := String.length s.

(** [s.lower()] on code points below 256: A-Z and the Latin-1 capitals
    U+00C0..U+00DE (U+00D7 is the multiplication sign) move up by 32. *)
Definition lower_char (c : ascii) : ascii :=
  let n := nat_of_ascii c in
  if ((65 <=? n) && (n <=? 90)) ||
     ((192 <=? n) && (n <=? 222) && negb (n =? 215))
  then ascii_of_nat (n + 32) else c.

Fixpoint lower (s : str) : str :=
  match s with
  | EmptyString => EmptyString
  | String c s' => String (lower_char c) (lower s')
  end.

(** [s.endswith(suffix)] *)
Definition endswith (s suffix : str) : bool :=
  (len suffix <=? len s) &&
  String.eqb (substring (len s - len suffix) (len suffix) s) suffix.

(** [c.isspace()] on code points below 256: TAB..CR, FS..US, space,
    NEL (U+0085) and the no-break space (U+00A0). *)
Definition isspace (c : ascii) : bool :=
  let n := nat_of_ascii c in
  ((9 <=? n) && (n <=? 13)) || ((28 <=? n) && (n <=? 32)) ||
  (n =? 133) || (n =? 160).

Fixpoint lstrip (s : str) : str :=
  match s with
  | EmptyString => EmptyString
  | String c s' => if isspace c then lstrip s' else s
  end.

Fixpoint rev (s : str) : str :=
  match s with
  | EmptyString => EmptyString
  | String c s' => String.append (rev s') (String c EmptyString)
  end.

Definition rstrip (s : str) : str := rev (lstrip (rev s)).

(** [s.strip()] *)
Definition strip (s : str) : str := rstrip (lstrip s).

(** Truth value of a string: the empty string is falsy. *)
Definition truthy (s : str) : bool := negb (String.eqb s ""%string).

(** [s[:n]] *)
Definition slice_to (n : nat) (s : str) : str := substring 0 n s.

(** Every character of [s] is white space (the empty string included). *)
Fixpoint blank (s : str) : bool :=
  match s with
  | EmptyString => true
  | String c s' => isspace c && blank s'
  end.

(** Exceptions.  The handlers format a caught exception with [str(e)] into
    the detail of a new one; the detail keeps the caught exception itself
    instead of committing to the text the library prints for it. *)
Inductive Detail : Type :=
| Text (s : str)
| ErrorProcessingPDF (e : PyExc)        (* f"Error processing PDF: {str(e)}" *)
| ErrorProcessingQuestion (e : PyExc)   (* f"Error processing question: {str(e)}" *)
| StrOf (e : PyExc)                     (* str(e) *)
with PyExc : Type :=
| HTTPException (status_code : Z) (detail : Detail)
| Exception (msg : str).

Inductive Outcome (A : Type) : Type :=
| Returned (a : A)
| Raised (e : PyExc).
Arguments Raised {A} e.

(** Status code FastAPI answers with: 200 for a returned body, the status
    of a raised [HTTPException], 500 for any other exception. *)
Definition http_status {A} (o : Outcome A) : Z :=
  match o with
  | Returned _ => 200%Z
  | Raised (HTTPException c _) => c
  | Raised (Exception _) => 500%Z
  end.

(** State and exception monad of a handler body. *)
Definition M (S A : Type) : Type := S -> Outcome A * S.

Definition ret {S A} (a : A) : M S A := fun s => (Returned a, s).
Definition raise {S A} (e : PyExc) : M S A := fun s => (Raised e, s).
Definition bind {S A B} (m : M S A) (k : A -> M S B) : M S B :=
  fun s => match m s with
           | (Returned a, s') => k a s'
           | (Raised e, s') => (Raised e, s')
           end.
Definition get {S} : M S S := fun s => (Returned s, s).
Definition modify {S} (f : S -> S) : M S unit := fun s => (Returned tt, f s).
(** Result of a third-party call, as the environment gives it. *)
Definition call {S A} (o : Outcome A) : M S A := fun s => (o, s).
(** [try: body except Exception as e: handler(e)] *)
Definition try_except {S A} (body : M S A) (handler : PyExc -> M S A) : M S A :=
  fun s => match body s with
           | (Returned a, s') => (Returned a, s')
           | (Raised e, s') => handler e s'
           end.
(** [try: body except: pass] *)
Definition try_pass {S} (body : M S unit) : M S unit :=
  try_except body (fun _ => ret tt).

Declare Scope py_scope.
Notation "x <- m ;; k" := (bind m (fun x => k))
  (at level 61, m at next level, right associativity) : py_scope.
Notation "m ;;; k" := (bind m (fun _ => k))
  (at level 61, right associativity) : py_scope.

(** The temporary directory: the paths that exist. *)
Definition Files := list str.

Definition exists_file (p : str) (fs : Files) : bool := existsb (String.eqb p) fs.

(** Creating (or truncating) a file. *)
Definition create_file (p : str) (fs : Files) : Files :=
  if exists_file p fs then fs else p :: fs.

Definition remove_file (p : str) (fs : Files) : Files :=
  filter (fun q => negb (String.eqb p q)) fs.

(** langchain data *)
Inductive Page : Type := PageNumber (n : Z) | Unknown.

Record Document : Type := {
  page_content : str;
  metadata_page : option Z          (* metadata["page"], when present *)
}.

(** [doc.metadata.get("page", "Unknown")] *)
Definition metadata_get_page (d : Document) : Page :=
  match metadata_page d with Some n => PageNumber n | None => Unknown end.

Definition Vector := list Q.

Record HuggingFaceEmbeddings : Type := {
  hf_model_name : str;
  hf_device : option str;
  embed : str -> option Vector      (* text -> fixed-length vector, may fail *)
}.

(** A FAISS store: the chunks in sequence order, each with its vector. *)
Record FAISS : Type := {
  entries : list (Document * Vector);
  embedder : HuggingFaceEmbeddings
}.

Record VectorStoreRetriever : Type := {
  vectorstore : FAISS;
  k : nat
}.

Record ChatGroq : Type := {
  api_key : option str;
  model_name : str;
  temperature : option Q;
  max_tokens : option nat
}.

Record RetrievalQA : Type := {
  llm : ChatGroq;
  chain_type : str;
  retriever : VectorStoreRetriever;
  return_source_documents : bool
}.

Record UploadFile : Type := {
  filename : str
}.

End Py.

(* ------------------------------------------------------------------ *)
(** ** src/main.py *)

Module Main.
Import Py.
Local Open Scope string_scope.
Local Open Scope py_scope.

Record DocumentInfo : Type := {
  info_filename : str;
  num_pages : nat;
  num_chunks : nat;
  total_characters : nat
}.

(** The process: the three module-level globals, the environment variable
    read by [os.getenv], the temporary files that exist, and the queries
    [qa_chain] has been called with (most recent first). *)
Record State : Type := {
  qa_chain : option RetrievalQA;
  current_document_info : option DocumentInfo;
  embeddings : option HuggingFaceEmbeddings;
  GROQ_API_KEY : option str;
  tmp : Files;
  chain_queries : list str
}.

(** The Session slot of the specification. *)
Definition session (st : State) : option RetrievalQA * option DocumentInfo :=
  (qa_chain st, current_document_info st).

(** State at import time: both globals are [None]; [embeddings] is the
    model, or [None] when loading it raised. *)
Definition initial (load : Outcome HuggingFaceEmbeddings) (key : option str) : State :=
  {| qa_chain := None;
     current_document_info := None;
     embeddings := match load with Returned e => Some e | Raised _ => None end;
     GROQ_API_KEY := key;
     tmp := [];
     chain_queries := [] |}.

Record HealthBody : Type := {
  status : str;
  embeddings_loaded : bool;
  document_processed : bool
}.

Definition is_not_None {A} (o : option A) : bool :=
  match o with Some _ => true | None => false end.

Definition health_check (st : State) : HealthBody :=
  {| status := "healthy";
     embeddings_loaded := is_not_None (embeddings st);
     document_processed := is_not_None (qa_chain st) |}.

(** Outcomes of the third-party calls of one upload, in call order. *)
Record UploadEnv : Type := {
  NamedTemporaryFile : Outcome str;            (* the name of the file it created *)
  file_read : Outcome bytes;
  temp_file_write : bytes -> Outcome unit;
  PyPDFLoader_load : str -> Outcome (list Document);
  split_documents : list Document -> Outcome (list Document);
  FAISS_from_documents : list Document -> HuggingFaceEmbeddings -> Outcome FAISS;
  ChatGroq_init : ChatGroq -> Outcome unit;
  RetrievalQA_from_chain_type : RetrievalQA -> Outcome unit;
  unlink_line_130 : Outcome unit;              (* os.unlink(pdf_path) after the assignments *)
  unlink_line_143 : Outcome unit               (* os.unlink(pdf_path) in the except clause *)
}.

Record UploadBody : Type := {
  message : str;
  document_info : DocumentInfo
}.

(** Frame of [upload_pdf]: the process and the local [pdf_path], which the
    handler tests with ['pdf_path' in locals()]. *)
Record Frame : Type := {
  proc : State;
  pdf_path : option str
}.

Definition on_proc (f : State -> State) (fr : Frame) : Frame :=
  {| proc := f (proc fr); pdf_path := pdf_path fr |}.

Definition set_pdf_path (p : str) (fr : Frame) : Frame :=
  {| proc := proc fr; pdf_path := Some p |}.

Definition set_tmp (fs : Files) (st : State) : State :=
  {| qa_chain := qa_chain st;
     current_document_info := current_document_info st;
     embeddings := embeddings st;
     GROQ_API_KEY := GROQ_API_KEY st;
     tmp := fs;
     chain_queries := chain_queries st |}.

Definition set_qa_chain (c : option RetrievalQA) (st : State) : State :=
  {| qa_chain := c;
     current_document_info := current_document_info st;
     embeddings := embeddings st;
     GROQ_API_KEY := GROQ_API_KEY st;
     tmp := tmp st;
     chain_queries := chain_queries st |}.

Definition set_current_document_info (i : option DocumentInfo) (st : State) : State :=
  {| qa_chain := qa_chain st;
     current_document_info := i;
     embeddings := embeddings st;
     GROQ_API_KEY := GROQ_API_KEY st;
     tmp := tmp st;
     chain_queries := chain_queries st |}.

Definition add_query (q : str) (st : State) : State :=
  {| qa_chain := qa_chain st;
     current_document_info := current_document_info st;
     embeddings := embeddings st;
     GROQ_API_KEY := GROQ_API_KEY st;
     tmp := tmp st;
     chain_queries := q :: chain_queries st |}.

(** [os.unlink(path)]: raises when there is no such file; otherwise the
    call returns or raises as the environment says ([outcome]), and the file
    is removed when it returns. *)
Definition os_unlink (outcome : Outcome unit) (p : str) : M Frame unit :=
  fun fr =>
    if exists_file p (tmp (proc fr))
    then match outcome with
         | Returned _ =>
             (Returned tt, on_proc (fun st => set_tmp (remove_file p (tmp st)) st) fr)
         | Raised e => (Raised e, fr)
         end
    else (Raised (Exception "FileNotFoundError"), fr).

Definition raise_if {S} (b : bool) (e : PyExc) : M S unit :=
  if b then raise e else ret tt.

Definition is_empty {A} (l : list A) : bool :=
  match l with [] => true | _ => false end.

(** [not groq_api_key]: [None] and the empty string are falsy. *)
Definition key_missing (key : option str) : bool :=
  match key with Some s => negb (truthy s) | None => true end.

Definition sum_len (docs : list Document) : nat :=
  list_sum (map (fun doc => len (page_content doc)) docs).

(** Lines 73-137: the body of the [try]. *)
Definition upload_try (env : UploadEnv) (file : UploadFile)
           (emb : HuggingFaceEmbeddings) : M Frame UploadBody :=
  name <- call (NamedTemporaryFile env) ;;
  modify (on_proc (fun st => set_tmp (create_file name (tmp st)) st)) ;;;
  content <- call (file_read env) ;;
  call (temp_file_write env content) ;;;
  modify (set_pdf_path name) ;;;
  documents <- call (PyPDFLoader_load env name) ;;
  raise_if (is_empty documents)
    (HTTPException 400 (Text "No content found in the PDF file")) ;;;
  docs <- call (split_documents env documents) ;;
  faiss_index <- call (FAISS_from_documents env docs emb) ;;
  fr <- get ;;
  let groq_api_key := GROQ_API_KEY (proc fr) in
  raise_if (key_missing groq_api_key)
    (HTTPException 500 (Text "GROQ_API_KEY environment variable not set")) ;;;
  let llm := {| api_key := groq_api_key;
                model_name := "llama3-8b-8192";
                temperature := Some (1 # 10)%Q;
                max_tokens := Some 1000 |} in
  call (ChatGroq_init env llm) ;;;
  let chain := {| llm := llm;
                  chain_type := "stuff";
                  retriever := {| vectorstore := faiss_index; k := 4 |};
                  return_source_documents := true |} in
  call (RetrievalQA_from_chain_type env chain) ;;;
  modify (on_proc (set_qa_chain (Some chain))) ;;;
  let info := {| info_filename := filename file;
                 num_pages := length documents;
                 num_chunks := length docs;
                 total_characters := sum_len docs |} in
  modify (on_proc (set_current_document_info (Some info))) ;;;
  os_unlink (unlink_line_130 env) name ;;;
  ret {| message := "PDF '" ++ filename file ++ "' uploaded and processed successfully";
         document_info := info |}.

(** Lines 139-148: the [except Exception as e] clause. *)
Definition upload_except (env : UploadEnv) (e : PyExc) : M Frame UploadBody :=
  fr <- get ;;
  match pdf_path fr with
  | Some p => try_pass (os_unlink (unlink_line_143 env) p)
  | None => ret tt
  end ;;;
  raise (HTTPException 500 (ErrorProcessingPDF e)).

Definition upload_pdf (env : UploadEnv) (file : UploadFile) : M State UploadBody :=
  fun st =>
    if negb (endswith (lower (filename file)) ".pdf")
    then raise (HTTPException 400 (Text "Only PDF files are allowed")) st
    else
      match embeddings st with
      | None =>
          raise (HTTPException 500
                   (Text "Embeddings model not loaded. Please restart the server.")) st
      | Some emb =>
          let (o, fr) := try_except (upload_try env file emb) (upload_except env)
                           {| proc := st; pdf_path := None |} in
          (o, proc fr)
      end.

(** What [qa_chain({"query": question})] returns. *)
Record ChainOutput : Type := {
  result : str;
  source_documents : option (list Document)   (* the key may be absent *)
}.

Record AskEnv : Type := {
  qa_chain_call : RetrievalQA -> str -> Outcome ChainOutput
}.

Record Source : Type := {
  chunk_id : nat;
  page : Page;
  content_preview : str
}.

Record AskBody : Type := {
  question : str;
  answer : str;
  ask_document_info : option DocumentInfo;
  sources : list Source;
  num_sources : nat
}.

(** [doc.page_content[:200] + "..." if len(doc.page_content) > 200
     else doc.page_content] *)
Definition preview (text : str) : str :=
  if (200 <? len text)%nat then slice_to 200 text ++ "..." else text.

(** Lines 173-179: [for i, doc in enumerate(source_docs): sources.append(..)],
    started at index [i] with the list built so far. *)
Fixpoint append_sources (i : nat) (source_docs : list Document)
         (sources : list Source) : list Source :=
  match source_docs with
  | [] => sources
  | doc :: rest =>
      append_sources (S i) rest
        (sources ++ [{| chunk_id := i + 1;
                        page := metadata_get_page doc;
                        content_preview := preview (page_content doc) |}])%list
  end.

(** [result.get("source_documents", [])] *)
Definition get_source_documents (r : ChainOutput) : list Document :=
  match source_documents r with Some l => l | None => [] end.

(** Lines 165-190: the body of the [try]. *)
Definition ask_try (env : AskEnv) (chain : RetrievalQA) (q : str) : M State AskBody :=
  modify (add_query q) ;;;
  r <- call (qa_chain_call env chain q) ;;
  let answer := result r in
  let source_docs := get_source_documents r in
  let sources := append_sources 0 source_docs [] in
  st <- get ;;
  ret {| question := q;
         answer := answer;
         ask_document_info := current_document_info st;
         sources := sources;
         num_sources := length sources |}.

Definition ask_question (env : AskEnv) (q : str) : M State AskBody :=
  fun st =>
    match qa_chain st with
    | None =>
        raise (HTTPException 400
                 (Text "No PDF document has been uploaded and processed. Please upload a PDF first.")) st
    | Some chain =>
        if negb (truthy (strip q))
        then raise (HTTPException 400 (Text "Question cannot be empty")) st
        else try_except (ask_try env chain q)
               (fun e => raise (HTTPException 500 (ErrorProcessingQuestion e))) st
    end.

Record StatusBody : Type := {
  system_ready : bool;
  status_embeddings_loaded : bool;
  current_document : option DocumentInfo;
  groq_api_configured : bool
}.

Definition get_status (st : State) : StatusBody :=
  {| system_ready := is_not_None (qa_chain st);
     status_embeddings_loaded := is_not_None (embeddings st);
     current_document := current_document_info st;
     groq_api_configured := negb (key_missing (GROQ_API_KEY st)) |}.

Definition reset_system : M State str :=
  modify (set_qa_chain None) ;;;
  modify (set_current_document_info None) ;;;
  ret "System reset successfully. You can now upload a new PDF."%string.

(** The routes of the application. *)
Inductive Request : Type :=
| GET_health
| POST_upload_pdf (env : UploadEnv) (file : UploadFile)
| POST_ask (env : AskEnv) (q : str)
| GET_status
| DELETE_reset.

Inductive Reply : Type :=
| HealthReply (b : HealthBody)
| UploadReply (o : Outcome UploadBody)
| AskReply (o : Outcome AskBody)
| StatusReply (b : StatusBody)
| ResetReply (o : Outcome str).

Definition serve (r : Request) (st : State) : Reply * State :=
  match r with
  | GET_health => (HealthReply (health_check st), st)
  | POST_upload_pdf env file =>
      let (o, st') := upload_pdf env file st in (UploadReply o, st')
  | POST_ask env q =>
      let (o, st') := ask_question env q st in (AskReply o, st')
  | GET_status => (StatusReply (get_status st), st)
  | DELETE_reset =>
      let (o, st') := reset_system st in (ResetReply o, st')
  end.

(** Requests served one after the other. *)
Fixpoint serve_all (rs : list Request) (st : State) : list Reply * State :=
  match rs with
  | [] => ([], st)
  | r :: rest =>
      let (a, st1) := serve r st in
      let (al, st2) := serve_all rest st1 in
      (a :: al, st2)
  end.

End Main.

(* ------------------------------------------------------------------ *)
(** ** src/app.py *)

Module App.
Import Py.
Local Open Scope string_scope.
Local Open Scope py_scope.

(** The process: the one global, the environment variable, the files under
    [/tmp] and the queries [qa_chain] has been run with. *)
Record State : Type := {
  qa_chain : option RetrievalQA;
  GROQ_API_KEY : option str;
  tmp : Files;
  chain_queries : list str
}.

Definition initial (key : option str) : State :=
  {| qa_chain := None; GROQ_API_KEY := key; tmp := []; chain_queries := [] |}.

(** The handlers of this file raise nothing: they return a body (status
    200) or [JSONResponse(status_code=.., content={"error": ..})]. *)
Inductive Response (A : Type) : Type :=
| Body (b : A)
| JSONResponse (status_code : Z) (error : Detail).
Arguments JSONResponse {A} status_code error.

Definition status_of {A} (r : Response A) : Z :=
  match r with Body _ => 200%Z | JSONResponse c _ => c end.

Record UploadEnv : Type := {
  open_wb : str -> Outcome unit;
  file_read : Outcome bytes;
  f_write : bytes -> Outcome unit;
  PyPDFLoader_load : str -> Outcome (list Document);
  split_documents : list Document -> Outcome (list Document);
  HuggingFaceEmbeddings_init : Outcome HuggingFaceEmbeddings;
  FAISS_from_documents : list Document -> HuggingFaceEmbeddings -> Outcome FAISS;
  ChatGroq_init : ChatGroq -> Outcome unit;
  RetrievalQA_from_chain_type : RetrievalQA -> Outcome unit
}.

Definition set_tmp (fs : Files) (st : State) : State :=
  {| qa_chain := qa_chain st; GROQ_API_KEY := GROQ_API_KEY st;
     tmp := fs; chain_queries := chain_queries st |}.

Definition set_qa_chain (c : option RetrievalQA) (st : State) : State :=
  {| qa_chain := c; GROQ_API_KEY := GROQ_API_KEY st;
     tmp := tmp st; chain_queries := chain_queries st |}.

Definition add_query (q : str) (st : State) : State :=
  {| qa_chain := qa_chain st; GROQ_API_KEY := GROQ_API_KEY st;
     tmp := tmp st; chain_queries := q :: chain_queries st |}.

(** Lines 17-37: the body of the [try]. *)
Definition upload_try (env : UploadEnv) (file : UploadFile) : M State str :=
  let pdf_path := "/tmp/" ++ filename file in
  call (open_wb env pdf_path) ;;;
  modify (fun st => set_tmp (create_file pdf_path (tmp st)) st) ;;;
  content <- call (file_read env) ;;
  call (f_write env content) ;;;
  documents <- call (PyPDFLoader_load env pdf_path) ;;
  docs <- call (split_documents env documents) ;;
  embeddings <- call (HuggingFaceEmbeddings_init env) ;;
  faiss_index <- call (FAISS_from_documents env docs embeddings) ;;
  st <- get ;;
  let llm := {| api_key := GROQ_API_KEY st;
                model_name := "llama3-8b-8192";
                temperature := None;
                max_tokens := None |} in
  call (ChatGroq_init env llm) ;;;
  let chain := {| llm := llm;
                  chain_type := "stuff";
                  retriever := {| vectorstore := faiss_index; k := 4 |};
                  return_source_documents := false |} in
  call (RetrievalQA_from_chain_type env chain) ;;;
  modify (set_qa_chain (Some chain)) ;;;
  ret "PDF uploaded and processed successfully.".

Definition upload_pdf (env : UploadEnv) (file : UploadFile)
  : State -> Response str * State :=
  fun st =>
    match upload_try env file st with
    | (Returned m, st') => (Body m, st')
    | (Raised e, st') => (JSONResponse 500 (StrOf e), st')
    end.

Record AskEnv : Type := {
  qa_chain_run : RetrievalQA -> str -> Outcome str
}.

Record AskBody : Type := {
  question : str;
  answer : str
}.

Definition ask_question (env : AskEnv) (q : str)
  : State -> Response AskBody * State :=
  fun st =>
    match qa_chain st with
    | None => (JSONResponse 400 (Text "Upload and process a PDF first."), st)
    | Some chain =>
        match (modify (add_query q) ;;; call (qa_chain_run env chain q)) st with
        | (Returned a, st') => (Body {| question := q; answer := a |}, st')
        | (Raised e, st') => (JSONResponse 500 (StrOf e), st')
        end
    end.

End App.

(* ------------------------------------------------------------------ *)
(** ** Indexer, Retriever and Answerer

    The vector store and the chain are third-party code (FAISS, langchain):
    [main.py] only builds them and calls them. *)

Module Retrieval.
Import Py.

(** Modelled from the spec: the Indexer of section 4.2, whose code (FAISS)
    is not part of the sources.  One vector per chunk from the embedder;
    the build fails when there is no chunk or when embedding a chunk fails,
    and the embedder is bound to the index. *)
Fixpoint embed_all (emb : HuggingFaceEmbeddings) (chunks : list Document)
  : option (list (Document * Vector)) :=
  match chunks with
  | [] => Some []
  | c :: rest =>
      match embed emb (page_content c), embed_all emb rest with
      | Some v, Some l => Some ((c, v) :: l)
      | _, _ => None
      end
  end.

Definition build (chunks : list Document) (emb : HuggingFaceEmbeddings) : option FAISS :=
  match chunks with
  | [] => None
  | _ => match embed_all emb chunks with
         | Some l => Some {| entries := l; embedder := emb |}
         | None => None
         end
  end.

Section Metric.
(** The fixed distance metric (cosine or L2). *)
Variable distance : Vector -> Vector -> Q.
Variable qv : Vector.

Definition dist_to (e : Document * Vector) : Q := distance qv (snd e).

(** [a] is at most as far from [qv] as [b]. *)
Definition closer (a b : Document * Vector) : Prop := (dist_to a <= dist_to b)%Q.

(** Insertion before the first entry that is not closer: an entry that
    comes earlier in sequence order wins a tie. *)
Fixpoint insert_entry (x : Document * Vector) (l : list (Document * Vector))
  : list (Document * Vector) :=
  match l with
  | [] => [x]
  | y :: l' =>
      if Qle_bool (dist_to x) (dist_to y) then x :: y :: l'
      else y :: insert_entry x l'
  end.

Fixpoint by_distance (l : list (Document * Vector)) : list (Document * Vector) :=
  match l with
  | [] => []
  | x :: l' => insert_entry x (by_distance l')
  end.

(** The [k] entries closest to [qv], closest first. *)
Definition nearest (k : nat) (l : list (Document * Vector))
  : list (Document * Vector) :=
  firstn k (by_distance l).
End Metric.

(** Modelled from the spec: the Retriever of section 4.3, whose code
    (FAISS search behind a langchain retriever) is not part of the sources.
    The question is embedded with the embedder bound to the index; the
    result is the [k] nearest chunks in ascending distance, each with its
    rank (1 = closest). *)
Definition query (distance : Vector -> Vector -> Q) (index : FAISS)
           (questionText : str) (k : nat) : option (list (Document * nat)) :=
  match embed (embedder index) questionText with
  | Some qv =>
      let hits := map fst (nearest distance qv k (entries index)) in
      Some (combine hits (seq 1 (length hits)))
  | None => None
  end.

(** Modelled from the spec: the Answerer of section 4.4 (langchain's
    RetrievalQA, not part of the sources): the retrieved chunks, in rank
    order, and the question go to the language model; the result is the
    generated text with the same chunk list as provenance. *)
Definition answer (distance : Vector -> Vector -> Q)
           (complete : list Document -> str -> Outcome str)
           (chain : RetrievalQA) (q : str) : Outcome Main.ChainOutput :=
  let r := retriever chain in
  match query distance (vectorstore r) q (k r) with
  | None => Raised (Exception "embedding the question failed"%string)
  | Some ranked =>
      let chunks := map fst ranked in
      match complete chunks q with
      | Returned text =>
          Returned {| Main.result := text;
                      Main.source_documents :=
                        if return_source_documents chain then Some chunks else None |}
      | Raised e => Raised e
      end
  end.

(** An upload environment whose vector store is the Indexer above. *)
Definition indexer (chunks : list Document) (emb : HuggingFaceEmbeddings)
  : Outcome FAISS :=
  match build chunks emb with
  | Some index => Returned index
  | None => Raised (Exception "IndexBuildError"%string)
  end.

End Retrieval.

(* ------------------------------------------------------------------ *)
(** ** Vocabulary of the specification *)

Module Spec.
Import Py.
Local Open Scope string_scope.

(** Section 7 names the errors; in [main.py] each one is an
    [HTTPException] with a fixed status and detail. *)
Definition NotReadyError : PyExc :=
  HTTPException 400
    (Text "No PDF document has been uploaded and processed. Please upload a PDF first.").

Definition ValidationError_file_type : PyExc :=
  HTTPException 400 (Text "Only PDF files are allowed").

Definition ValidationError_empty_question : PyExc :=
  HTTPException 400 (Text "Question cannot be empty").

Definition ExtractionError : PyExc :=
  HTTPException 400 (Text "No content found in the PDF file").

(** The two states of the Session. *)
Definition EMPTY (st : Main.State) : Prop := Main.session st = (None, None).
Definition READY (st : Main.State) : Prop :=
  Main.is_not_None (Main.qa_chain st) = true.

(** A reply that is not a successful upload. *)
Definition no_successful_upload (r : Main.Reply) : Prop :=
  match r with
  | Main.UploadReply (Returned _) => False
  | _ => True
  end.

(** A reply that, when it answers an ask, is the NotReadyError. *)
Definition ask_not_ready (r : Main.Reply) : Prop :=
  match r with
  | Main.AskReply o => o = Raised NotReadyError
  | _ => True
  end.

(** The source entry [main.py] builds for the chunk of rank [rank]. *)
Definition source_of (rank : nat) (doc : Document) (src : Main.Source) : Prop :=
  Main.chunk_id src = rank /\
  Main.page src = metadata_get_page doc /\
  Main.content_preview src = Main.preview (page_content doc).

(** Entries in non-decreasing distance to the query vector. *)
Definition ascending (distance : Vector -> Vector -> Q) (qv : Vector)
           (l : list (Document * Vector)) : Prop :=
  Sorted (Retrieval.closer distance qv) l.

End Spec.

(* ------------------------------------------------------------------ *)
(** ** Sample inputs *)

Module Sample.
Import Py.
Local Open Scope string_scope.

Definition alpha : Document :=
  {| page_content := "Alpha Beta Gamma"; metadata_page := Some 0%Z |}.
Definition delta : Document :=
  {| page_content := "Delta"; metadata_page := Some 1%Z |}.

(** A one-dimensional embedder: the length of the text. *)
Definition by_length : HuggingFaceEmbeddings :=
  {| hf_model_name := "sentence-transformers/all-MiniLM-L6-v2";
     hf_device := Some "cpu";
     embed := fun s => Some [inject_Z (Z.of_nat (len s))] |}.

(** Squared difference of the first coordinates. *)
Definition sq_dist (a b : Vector) : Q :=
  match a, b with
  | x :: _, y :: _ => ((x - y) * (x - y))%Q
  | _, _ => 0%Q
  end.

Definition pdf (name : str) : UploadFile := {| filename := name |}.

(** An upload during which every third-party call succeeds and the loader
    yields [pages]. *)
Definition main_upload (pages : list Document) : Main.UploadEnv :=
  {| Main.NamedTemporaryFile := Returned "/tmp/tmpk3x9.pdf";
     Main.file_read := Returned "%PDF-1.4";
     Main.temp_file_write := fun _ => Returned tt;
     Main.PyPDFLoader_load := fun _ => Returned pages;
     Main.split_documents := fun l => Returned l;
     Main.FAISS_from_documents := Retrieval.indexer;
     Main.ChatGroq_init := fun _ => Returned tt;
     Main.RetrievalQA_from_chain_type := fun _ => Returned tt;
     Main.unlink_line_130 := Returned tt;
     Main.unlink_line_143 := Returned tt |}.

(** The same upload, with the write to the temporary file failing. *)
Definition main_upload_disk_full : Main.UploadEnv :=
  {| Main.NamedTemporaryFile := Returned "/tmp/tmpk3x9.pdf";
     Main.file_read := Returned "%PDF-1.4";
     Main.temp_file_write := fun _ => Raised (Exception "No space left on device");
     Main.PyPDFLoader_load := fun _ => Returned [alpha; delta];
     Main.split_documents := fun l => Returned l;
     Main.FAISS_from_documents := Retrieval.indexer;
     Main.ChatGroq_init := fun _ => Returned tt;
     Main.RetrievalQA_from_chain_type := fun _ => Returned tt;
     Main.unlink_line_130 := Returned tt;
     Main.unlink_line_143 := Returned tt |}.

(** The same upload, with the vector store failing to build. *)
Definition main_upload_index_fails : Main.UploadEnv :=
  {| Main.NamedTemporaryFile := Returned "/tmp/tmpk3x9.pdf";
     Main.file_read := Returned "%PDF-1.4";
     Main.temp_file_write := fun _ => Returned tt;
     Main.PyPDFLoader_load := fun _ => Returned [alpha; delta];
     Main.split_documents := fun l => Returned l;
     Main.FAISS_from_documents := fun _ _ => Raised (Exception "embedding failed");
     Main.ChatGroq_init := fun _ => Returned tt;
     Main.RetrievalQA_from_chain_type := fun _ => Returned tt;
     Main.unlink_line_130 := Returned tt;
     Main.unlink_line_143 := Returned tt |}.

Definition main_start : Main.State :=
  Main.initial (Returned by_length) (Some "gsk_key").

Definition echo (chunks : list Document) (q : str) : Outcome str :=
  Returned ("Answer to: " ++ q).

Definition main_ask : Main.AskEnv :=
  {| Main.qa_chain_call := Retrieval.answer sq_dist echo |}.

(** The process of [main.py] after [alpha] and [delta] were uploaded. *)
Definition main_ready : Main.State :=
  snd (Main.upload_pdf (main_upload [alpha; delta]) (pdf "paper.pdf") main_start).

Definition app_upload : App.UploadEnv :=
  {| App.open_wb := fun _ => Returned tt;
     App.file_read := Returned "%PDF-1.4";
     App.f_write := fun _ => Returned tt;
     App.PyPDFLoader_load := fun _ => Returned [alpha; delta];
     App.split_documents := fun l => Returned l;
     App.HuggingFaceEmbeddings_init := Returned by_length;
     App.FAISS_from_documents := Retrieval.indexer;
     App.ChatGroq_init := fun _ => Returned tt;
     App.RetrievalQA_from_chain_type := fun _ => Returned tt |}.

Definition app_start : App.State := App.initial (Some "gsk_key").

(** Requests served after a reset: an ask, an upload that fails, a health
    check and another ask. *)
Definition after_reset : list Main.Request :=
  [ Main.POST_ask main_ask "What is Alpha?";
    Main.POST_upload_pdf main_upload_index_fails (pdf "paper.pdf");
    Main.GET_health;
    Main.POST_ask main_ask "And Beta?" ].

Definition app_ask : App.AskEnv :=
  {| App.qa_chain_run := fun _ q => Returned ("Answer to: " ++ q) |}.

(** The process of [app.py] after an upload. *)
Definition app_ready : App.State :=
  snd (App.upload_pdf app_upload (pdf "paper.pdf") app_start).

End Sample.

(* ------------------------------------------------------------------ *)
(** ** Replies along a sequence of requests *)

Module Trace.
Import Py.

(** A reply of a request that leaves the stored document in place: neither a
    successful upload nor a reset. *)
Definition keeps_document (r : Main.Reply) : Prop :=
  match r with
  | Main.UploadReply (Returned _) => False
  | Main.ResetReply _ => False
  | _ => True
  end.

(** A reply that, when it is a successful answer, carries the document
    information [info]. *)
Definition ask_reports (info : Main.DocumentInfo) (r : Main.Reply) : Prop :=
  match r with
  | Main.AskReply (Returned body) => Main.ask_document_info body = Some info
  | _ => True
  end.

(** The statuses an upload of [main.py] answers with. *)
Definition upload_status (env : Main.UploadEnv) (file : UploadFile) (st : Main.State) : Z :=
  http_status (fst (Main.upload_pdf env file st)).

Definition ask_status (env : Main.AskEnv) (q : str) (st : Main.State) : Z :=
  http_status (fst (Main.ask_question env q st)).

(** A request that, when it is an upload, is one whose [os.unlink] of line
    130 (the one after the two assignments) does not raise. *)
Definition cleanup_returns (r : Main.Request) : Prop :=
  match r with
  | Main.POST_upload_pdf env _ => Main.unlink_line_130 env = Returned tt
  | _ => True
  end.

(** A reply that does not come from a reset. *)
Definition not_a_reset (r : Main.Reply) : Prop :=
  match r with
  | Main.ResetReply _ => False
  | _ => True
  end.

(** A reply that, when it answers an ask, is not the NotReadyError. *)
Definition ask_is_served (r : Main.Reply) : Prop :=
  match r with
  | Main.AskReply o => o <> Raised Spec.NotReadyError
  | _ => True
  end.

End Trace.

(* ------------------------------------------------------------------ *)
(** ** Further sample inputs *)

Module Fixture.
Import Py.
Local Open Scope string_scope.

(** A process whose embeddings model failed to load. *)
Definition no_embeddings : Main.State :=
  Main.initial (Raised (Exception "model download failed")) (Some "gsk_key").

(** A process started without the API key. *)
Definition no_api_key : Main.State :=
  Main.initial (Returned Sample.by_length) None.

Definition good_upload : Main.UploadEnv :=
  Sample.main_upload [Sample.alpha; Sample.delta].

(** Requests while a document stays loaded: an ask, an upload that fails, a
    status call and another ask. *)
Definition while_loaded : list Main.Request :=
  [ Main.POST_ask Sample.main_ask "Delta";
    Main.POST_upload_pdf Sample.main_upload_index_fails (Sample.pdf "other.pdf");
    Main.GET_status;
    Main.POST_ask Sample.main_ask "What is Alpha?" ].



(** Requests that try to get a document in: an upload and an ask. *)
Definition upload_then_ask : list Main.Request :=
  [ Main.POST_upload_pdf good_upload (Sample.pdf "paper.pdf");
    Main.POST_ask Sample.main_ask "Delta" ].

End Fixture.

(* ------------------------------------------------------------------ *)
(** ** Proof automation *)

(** One step of a handler run recorded in [H]: a file that was just created
    exists ([created] is the lemma saying so); otherwise case analysis on the
    next outcome or test. *)
Ltac run_step created H :=
  first
    [ rewrite created in H
    | match type of H with
      | context [match ?o with Py.Returned _ => _ | Py.Raised _ => _ end] =>
          destruct o eqn:?
      | context [if ?b then _ else _] => destruct b eqn:?
      | context [match ?p with Some _ => _ | None => _ end] => destruct p eqn:?
      end ];
  cbn [fst snd Main.proc Main.pdf_path Main.tmp Main.set_tmp Main.set_qa_chain
       Main.set_current_document_info Main.GROQ_API_KEY] in H.

Ltac run_upload created H :=
  cbv [Py.try_except Main.upload_try Main.upload_except Py.bind Py.call Py.modify
       Py.get Py.ret Py.raise Main.raise_if Py.try_pass Main.os_unlink Main.on_proc
       Main.set_pdf_path Main.proc Main.pdf_path] in H;
  repeat run_step created H.

(** A run of the upload of [app.py] recorded in [H]: case analysis on the
    outcomes of its calls, in order. *)
Ltac run_app H :=
  repeat (match type of H with
          | context [match ?o with Py.Returned _ => _ | Py.Raised _ => _ end] =>
              destruct o eqn:?
          end;
          cbn [fst snd App.tmp App.set_tmp App.set_qa_chain App.qa_chain
               App.GROQ_API_KEY App.chain_queries] in H).

(* ------------------------------------------------------------------ *)
(** ** Strings and files *)

Import Py.
Local Open Scope string_scope.

Lemma len_append (a b : str) : len (a ++ b) = len a + len b.
Proof.
  induction a as [|c a IH]; simpl; [reflexivity|].
  unfold len in *. simpl. now rewrite IH.
Qed.

Lemma len_slice_to (n : nat) (s : str) : len (slice_to n s) = Nat.min n (len s).
Proof.
  unfold slice_to, len. revert s.
  induction n as [|n IH]; intros [|c s]; simpl; try reflexivity.
  now rewrite IH.
Qed.

Lemma blank_append (a b : str) : blank (a ++ b) = blank a && blank b.
Proof.
  induction a as [|c a IH]; simpl; [reflexivity|].
  now rewrite IH, andb_assoc.
Qed.

Lemma blank_rev (s : str) : blank (Py.rev s) = blank s.
Proof.
  induction s as [|c s IH]; simpl; [reflexivity|].
  rewrite blank_append, IH. simpl. rewrite andb_true_r. apply andb_comm.
Qed.

Lemma rev_empty (s : str) : Py.rev s = "" -> s = "".
Proof.
  destruct s as [|c s]; simpl; [reflexivity|].
  destruct (Py.rev s); discriminate.
Qed.

Lemma lstrip_empty_iff (s : str) : lstrip s = "" <-> blank s = true.
Proof.
  induction s as [|c s IH]; simpl; [tauto|].
  destruct (isspace c); simpl; [exact IH|].
  split; discriminate.
Qed.

(** What [lstrip] leaves does not start with white space. *)
Lemma lstrip_blank_is_empty (s : str) : blank (lstrip s) = true -> lstrip s = "".
Proof.
  induction s as [|c s IH]; simpl; [reflexivity|].
  destruct (isspace c) eqn:E; [exact IH|].
  simpl. rewrite E. discriminate.
Qed.

(** [not question.strip()] holds exactly for the blank questions. *)
Lemma strip_empty_iff (q : str) : strip q = "" <-> blank q = true.
Proof.
  unfold strip, rstrip. split; intro H.
  - apply rev_empty in H. apply lstrip_empty_iff in H.
    rewrite blank_rev in H. apply lstrip_blank_is_empty in H.
    now apply lstrip_empty_iff.
  - apply lstrip_empty_iff in H. rewrite H. reflexivity.
Qed.

Lemma blank_not_truthy (q : str) : blank q = true -> negb (truthy (strip q)) = true.
Proof.
  intro H. apply strip_empty_iff in H. rewrite H. reflexivity.
Qed.

Lemma exists_file_create (p : str) (fs : Files) :
  exists_file p (create_file p fs) = true.
Proof.
  unfold create_file. destruct (exists_file p fs) eqn:E; [exact E|].
  unfold exists_file. simpl. now rewrite String.eqb_refl.
Qed.

(* ------------------------------------------------------------------ *)
(** ** The source list of an answer *)

(** The loop appends one entry per document, numbered from [i + 1]. *)
Lemma append_sources_acc (docs : list Document) :
  forall (i : nat) (acc : list Main.Source),
    Main.append_sources i docs acc = (acc ++ Main.append_sources i docs [])%list.
Proof.
  induction docs as [|doc docs IH]; intros i acc; simpl.
  - now rewrite app_nil_r.
  - rewrite IH. rewrite (IH (S i) [_]). now rewrite <- app_assoc.
Qed.

Lemma append_sources_cons (i : nat) (doc : Document) (docs : list Document) :
  Main.append_sources i (doc :: docs) [] =
  {| Main.chunk_id := i + 1;
     Main.page := metadata_get_page doc;
     Main.content_preview := Main.preview (page_content doc) |}
    :: Main.append_sources (S i) docs [].
Proof.
  simpl. now rewrite append_sources_acc.
Qed.

Lemma append_sources_length (docs : list Document) (i : nat) :
  length (Main.append_sources i docs []) = length docs.
Proof.
  revert i. induction docs as [|doc docs IH]; intro i; [reflexivity|].
  rewrite append_sources_cons. simpl. now rewrite IH.
Qed.

Lemma append_sources_chunk_ids (docs : list Document) (i : nat) :
  map Main.chunk_id (Main.append_sources i docs []) = seq (i + 1) (length docs).
Proof.
  revert i. induction docs as [|doc docs IH]; intro i; [reflexivity|].
  rewrite append_sources_cons. simpl. now rewrite IH.
Qed.

(** Entry number [j] of the list is built from document number [j]. *)
Lemma append_sources_ranked (docs : list Document) (i : nat) :
  Forall2 (fun rd src => Spec.source_of (fst rd) (snd rd) src)
          (combine (seq (i + 1) (length docs)) docs)
          (Main.append_sources i docs []).
Proof.
  revert i. induction docs as [|doc docs IH]; intro i; [constructor|].
  rewrite append_sources_cons. simpl. constructor.
  - repeat split.
  - apply (IH (S i)).
Qed.

Lemma append_sources_previews (docs : list Document) (i : nat) :
  Forall2 (fun doc src => Main.content_preview src = Main.preview (page_content doc))
          docs (Main.append_sources i docs []).
Proof.
  revert i. induction docs as [|doc docs IH]; intro i; [constructor|].
  rewrite append_sources_cons. constructor; [reflexivity | apply IH].
Qed.

Lemma preview_cases (text : str) :
  (len text <= 200 -> Main.preview text = text) /\
  (200 < len text -> Main.preview text = slice_to 200 text ++ "...").
Proof.
  unfold Main.preview. split; intro H.
  - destruct (Nat.ltb_spec 200 (len text)); [lia | reflexivity].
  - destruct (Nat.ltb_spec 200 (len text)); [reflexivity | lia].
Qed.

Lemma preview_length (text : str) : len (Main.preview text) <= 203.
Proof.
  unfold Main.preview. destruct (Nat.ltb_spec 200 (len text)) as [H|H].
  - rewrite len_append, len_slice_to. change (len "...") with 3. lia.
  - lia.
Qed.

(** A returned answer comes from a returned chain call on the stored chain,
    and its source list is the loop over the chain's source documents. *)
Lemma ask_returned_inv (env : Main.AskEnv) (q : str) (st st' : Main.State)
      (body : Main.AskBody) :
  Main.ask_question env q st = (Returned body, st') ->
  exists chain r,
    Main.qa_chain st = Some chain /\
    negb (truthy (strip q)) = false /\
    Main.qa_chain_call env chain q = Returned r /\
    st' = Main.add_query q st /\
    body = {| Main.question := q;
              Main.answer := Main.result r;
              Main.ask_document_info := Main.current_document_info st;
              Main.sources := Main.append_sources 0 (Main.get_source_documents r) [];
              Main.num_sources :=
                length (Main.append_sources 0 (Main.get_source_documents r) []) |}.
Proof.
  unfold Main.ask_question. intro H.
  destruct (Main.qa_chain st) as [chain|] eqn:Hc; [|discriminate].
  destruct (negb (truthy (strip q))) eqn:Hq; [discriminate|].
  unfold try_except, Main.ask_try, bind, modify, call, get, ret, raise in H.
  destruct (Main.qa_chain_call env chain q) as [r|e] eqn:Hr; [|discriminate].
  inversion H; subst. exists chain, r. repeat split; auto.
Qed.

(* ------------------------------------------------------------------ *)
(** ** Running an upload of [main.py] *)

Lemma set_tmp_same (st : Main.State) : st = Main.set_tmp (Main.tmp st) st.
Proof. now destruct st. Qed.

Lemma initial_is_empty (load : Outcome HuggingFaceEmbeddings) (key : option str) :
  Spec.EMPTY (Main.initial load key).
Proof. reflexivity. Qed.

(** A failed upload either changed nothing but the set of temporary files,
    or it failed in the [os.unlink] of line 130, after both globals were
    assigned. *)
Lemma upload_failure_cases (env : Main.UploadEnv) (file : UploadFile)
      (st st' : Main.State) (e : PyExc) :
  Main.upload_pdf env file st = (Raised e, st') ->
  st' = Main.set_tmp (Main.tmp st') st \/
  (exists eu chain info,
      Main.unlink_line_130 env = Raised eu /\
      e = HTTPException 500 (ErrorProcessingPDF eu) /\
      Main.key_missing (Main.GROQ_API_KEY st) = false /\
      Main.embeddings st <> None /\
      st' = Main.set_tmp (Main.tmp st')
              (Main.set_current_document_info (Some info)
                 (Main.set_qa_chain (Some chain) st))).
Proof.
  unfold Main.upload_pdf. intro H.
  destruct (negb (endswith (lower (filename file)) ".pdf")).
  { left. inversion H; subst. apply set_tmp_same. }
  destruct (Main.embeddings st) as [emb|] eqn:He.
  2:{ left. inversion H; subst. apply set_tmp_same. }
  run_upload exists_file_create H; try discriminate; inversion H; subst;
    first [ left; first [reflexivity | apply set_tmp_same]
          | right; eexists; eexists; eexists;
            split; [reflexivity|]; split; [reflexivity|];
            split; [first [assumption | reflexivity]|];
            split; [discriminate | reflexivity] ].
Qed.

(** A failed upload whose [os.unlink] of line 130 does not raise changes
    nothing but the set of temporary files. *)
Lemma upload_failure_frame (env : Main.UploadEnv) (file : UploadFile)
      (st st' : Main.State) (e : PyExc) :
  Main.unlink_line_130 env = Returned tt ->
  Main.upload_pdf env file st = (Raised e, st') ->
  st' = Main.set_tmp (Main.tmp st') st.
Proof.
  intros Hu H. apply upload_failure_cases in H.
  destruct H as [H | (eu & chain & info & Hr & _)]; [exact H | congruence].
Qed.

(** A successful upload went through every stage, and stored the chain over
    the new index and the metadata of the new document. *)
Lemma upload_success_inv (env : Main.UploadEnv) (file : UploadFile)
      (st st' : Main.State) (body : Main.UploadBody) :
  Main.upload_pdf env file st = (Returned body, st') ->
  exists emb name content documents docs index,
    endswith (lower (filename file)) ".pdf" = true /\
    Main.embeddings st = Some emb /\
    Main.NamedTemporaryFile env = Returned name /\
    Main.file_read env = Returned content /\
    Main.PyPDFLoader_load env name = Returned documents /\
    documents <> [] /\
    Main.split_documents env documents = Returned docs /\
    Main.FAISS_from_documents env docs emb = Returned index /\
    let chain := {| llm := {| api_key := Main.GROQ_API_KEY st;
                              model_name := "llama3-8b-8192";
                              temperature := Some (1 # 10)%Q;
                              max_tokens := Some 1000 |};
                    chain_type := "stuff";
                    retriever := {| vectorstore := index; k := 4 |};
                    return_source_documents := true |} in
    let info := {| Main.info_filename := filename file;
                   Main.num_pages := length documents;
                   Main.num_chunks := length docs;
                   Main.total_characters := Main.sum_len docs |} in
    Main.document_info body = info /\
    Main.qa_chain st' = Some chain /\
    Main.current_document_info st' = Some info /\
    Main.tmp st' = remove_file name (create_file name (Main.tmp st)).
Proof.
  unfold Main.upload_pdf. intro H.
  destruct (endswith (lower (filename file)) ".pdf") eqn:Hn; [|discriminate].
  destruct (Main.embeddings st) as [emb|] eqn:He; [|discriminate].
  cbn [negb] in H.
  run_upload exists_file_create H; try discriminate;
    inversion H; subst; clear H;
    match goal with
    | Hl : Main.PyPDFLoader_load _ _ = Returned ?d,
      Hs : Main.split_documents _ _ = Returned ?c,
      Hf : Main.FAISS_from_documents _ _ _ = Returned ?i |- _ =>
        exists emb; eexists; eexists; exists d, c, i
    end;
    repeat split; eauto;
    intro; subst; discriminate.
Qed.

(** [main.py], lines 66-67: a file name that does not end in [.pdf], in any
    letter case, is refused before anything else happens. *)
Lemma main_upload_rejects_other_extensions (env : Main.UploadEnv) (file : UploadFile)
      (st : Main.State) :
  endswith (lower (filename file)) ".pdf" = false ->
  Main.upload_pdf env file st = (Raised Spec.ValidationError_file_type, st).
Proof.
  intro H. unfold Main.upload_pdf. now rewrite H.
Qed.

(** [main.py], lines 85-86 and 139-148: the 400 raised for a PDF without
    documents is caught by the [except Exception] clause of the same
    function and leaves as a 500. *)
Lemma main_upload_without_documents (env : Main.UploadEnv) (file : UploadFile)
      (st : Main.State) (emb : HuggingFaceEmbeddings) (name : str) (content : bytes) :
  endswith (lower (filename file)) ".pdf" = true ->
  Main.embeddings st = Some emb ->
  Main.NamedTemporaryFile env = Returned name ->
  Main.file_read env = Returned content ->
  Main.temp_file_write env content = Returned tt ->
  Main.PyPDFLoader_load env name = Returned [] ->
  Main.upload_pdf env file st =
  (Raised (HTTPException 500 (ErrorProcessingPDF Spec.ExtractionError)),
   Main.set_tmp (match Main.unlink_line_143 env with
                 | Returned _ => remove_file name (create_file name (Main.tmp st))
                 | Raised _ => create_file name (Main.tmp st)
                 end) st).
Proof.
  intros Hn He Ht Hr Hw Hl. unfold Main.upload_pdf. rewrite Hn, He.
  cbv [negb try_except Main.upload_try Main.upload_except bind call modify get ret
       raise Main.raise_if try_pass Main.os_unlink Main.on_proc Main.set_pdf_path
       Main.proc Main.pdf_path].
  rewrite Ht, Hr, Hw, Hl.
  cbn [Main.is_empty Main.tmp Main.set_tmp].
  rewrite exists_file_create.
  destruct (Main.unlink_line_143 env); reflexivity.
Qed.

(** [main.py], lines 74-77: [pdf_path] is bound after the read and the write,
    so when one of them raises the handler finds no ['pdf_path'] among the
    locals and the file that was created stays. *)
Lemma main_upload_leaks_unbound_path (env : Main.UploadEnv) (file : UploadFile)
      (st : Main.State) (emb : HuggingFaceEmbeddings) (name : str) (e : PyExc) :
  endswith (lower (filename file)) ".pdf" = true ->
  Main.embeddings st = Some emb ->
  Main.NamedTemporaryFile env = Returned name ->
  (Main.file_read env = Raised e \/
   exists content, Main.file_read env = Returned content /\
                   Main.temp_file_write env content = Raised e) ->
  Main.upload_pdf env file st =
  (Raised (HTTPException 500 (ErrorProcessingPDF e)),
   Main.set_tmp (create_file name (Main.tmp st)) st).
Proof.
  intros Hn He Ht Hrw. unfold Main.upload_pdf. rewrite Hn, He.
  cbv [negb try_except Main.upload_try Main.upload_except bind call modify get ret
       raise Main.raise_if try_pass Main.os_unlink Main.on_proc Main.set_pdf_path
       Main.proc Main.pdf_path].
  rewrite Ht.
  destruct Hrw as [Hr | [content [Hr Hw]]]; rewrite Hr; [reflexivity|].
  rewrite Hw. reflexivity.
Qed.

(** Once [pdf_path] is bound, the file is removed whatever happens next,
    provided [os.unlink] itself does not raise. *)
Lemma main_upload_removes_bound_path (env : Main.UploadEnv) (file : UploadFile)
      (st st' : Main.State) (o : Outcome Main.UploadBody)
      (emb : HuggingFaceEmbeddings) (name : str) (content : bytes) :
  endswith (lower (filename file)) ".pdf" = true ->
  Main.embeddings st = Some emb ->
  Main.NamedTemporaryFile env = Returned name ->
  Main.file_read env = Returned content ->
  Main.temp_file_write env content = Returned tt ->
  Main.unlink_line_130 env = Returned tt ->
  Main.unlink_line_143 env = Returned tt ->
  Main.upload_pdf env file st = (o, st') ->
  Main.tmp st' = remove_file name (create_file name (Main.tmp st)).
Proof.
  intros Hn He Ht Hr Hw Hu Hx H. unfold Main.upload_pdf in H. rewrite Hn, He in H.
  cbv [negb try_except Main.upload_try Main.upload_except bind call modify get ret
       raise Main.raise_if try_pass Main.os_unlink Main.on_proc Main.set_pdf_path
       Main.proc Main.pdf_path] in H.
  rewrite Ht, Hr, Hw, Hu, Hx in H.
  repeat run_step exists_file_create H; inversion H; subst; reflexivity.
Qed.


Lemma main_ask_not_ready (env : Main.AskEnv) (q : str) (st : Main.State) :
  Main.qa_chain st = None ->
  Main.ask_question env q st = (Raised Spec.NotReadyError, st).
Proof.
  intro H. unfold Main.ask_question. now rewrite H.
Qed.

(** [main.py], lines 155-162: a blank question is answered with a 400 in
    either state, before the chain is called. *)
Lemma main_ask_blank (env : Main.AskEnv) (q : str) (st : Main.State) :
  blank q = true ->
  exists e, Main.ask_question env q st = (Raised e, st) /\
            http_status (Raised (A:=Main.AskBody) e) = 400%Z /\
            (Main.qa_chain st <> None -> e = Spec.ValidationError_empty_question).
Proof.
  intro H. unfold Main.ask_question.
  destruct (Main.qa_chain st) as [chain|].
  - rewrite (blank_not_truthy q H). eexists. repeat split.
  - eexists. repeat split. congruence.
Qed.

Lemma app_ask_not_ready (env : App.AskEnv) (q : str) (st : App.State) :
  App.qa_chain st = None ->
  App.ask_question env q st =
  (App.JSONResponse 400 (Text "Upload and process a PDF first."), st).
Proof.
  intro H. unfold App.ask_question. now rewrite H.
Qed.

Lemma reset_state (st : Main.State) :
  Main.reset_system st =
  (Returned "System reset successfully. You can now upload a new PDF.",
   Main.set_current_document_info None (Main.set_qa_chain None st)).
Proof. reflexivity. Qed.

(** One request served in an EMPTY Session: unless an upload returns, or
    fails in its last [os.unlink] (which cannot happen without embeddings),
    the Session stays EMPTY, an ask is refused and the chain is not called. *)
Lemma empty_step (r : Main.Request) (st st1 : Main.State) (a : Main.Reply) :
  Main.serve r st = (a, st1) ->
  Spec.EMPTY st ->
  Spec.no_successful_upload a ->
  Trace.cleanup_returns r \/ Main.embeddings st = None ->
  Spec.ask_not_ready a /\ Spec.EMPTY st1 /\
  Main.chain_queries st1 = Main.chain_queries st /\
  Main.embeddings st1 = Main.embeddings st.
Proof.
  destruct r as [|env file|env q| |]; unfold Main.serve; intros Hr Hst Hno Hc.
  - inversion Hr; subst. repeat split; [exact Hst].
  - destruct (Main.upload_pdf env file st) as [o st'] eqn:Hu.
    inversion Hr; subst. destruct o as [body|e]; [contradiction|].
    apply upload_failure_cases in Hu.
    destruct Hu as [Hu | (eu & chain & info & Hraise & _ & _ & Hemb & _)].
    + rewrite Hu. repeat split; [exact Hst].
    + destruct Hc as [Hc | Hc]; [simpl in Hc; congruence | contradiction].
  - assert (Hq : Main.qa_chain st = None) by (now inversion Hst).
    rewrite (main_ask_not_ready env q st Hq) in Hr.
    inversion Hr; subst. repeat split; [exact Hst].
  - inversion Hr; subst. repeat split; [exact Hst].
  - rewrite reset_state in Hr. inversion Hr; subst. repeat split.
Qed.

(** While no upload succeeds and none fails in its last [os.unlink], an
    EMPTY session stays EMPTY, every ask is refused and the chain is not
    called. *)
Lemma empty_until_upload (rs : list Main.Request) :
  forall st : Main.State,
    Spec.EMPTY st ->
    Forall Spec.no_successful_upload (fst (Main.serve_all rs st)) ->
    Forall Trace.cleanup_returns rs \/ Main.embeddings st = None ->
    Forall Spec.ask_not_ready (fst (Main.serve_all rs st)) /\
    Spec.EMPTY (snd (Main.serve_all rs st)) /\
    Main.chain_queries (snd (Main.serve_all rs st)) = Main.chain_queries st.
Proof.
  induction rs as [|r rs IH]; intros st Hst Hno Hc; simpl in *.
  - repeat split; [constructor | exact Hst].
  - destruct (Main.serve r st) as [a st1] eqn:Hr.
    destruct (Main.serve_all rs st1) as [al st2] eqn:Hrs.
    simpl in *. inversion Hno as [|? ? Ha Hal]; subst.
    assert (Hc1 : Trace.cleanup_returns r \/ Main.embeddings st = None).
    { destruct Hc as [Hc | Hc]; [left; now inversion Hc | now right]. }
    destruct (@empty_step r st st1 a Hr Hst Ha Hc1) as (Ha1 & Hst1 & Hq1 & He1).
    assert (Hc2 : Forall Trace.cleanup_returns rs \/ Main.embeddings st1 = None).
    { destruct Hc as [Hc | Hc]; [left; now inversion Hc | right; congruence]. }
    specialize (IH st1 Hst1). rewrite Hrs in IH. simpl in IH.
    destruct (IH Hal Hc2) as (IH1 & IH2 & IH3).
    repeat split; [constructor; assumption | exact IH2 | congruence].
Qed.

(* ------------------------------------------------------------------ *)
(** ** Nearest-neighbour retrieval *)

Section Nearest.
Variable distance : Vector -> Vector -> Q.
Variable qv : Vector.

Local Abbreviation closer := (Retrieval.closer distance qv).

Lemma insert_entry_length (x : Document * Vector) (l : list (Document * Vector)) :
  length (Retrieval.insert_entry distance qv x l) = S (length l).
Proof.
  induction l as [|y l IH]; simpl; [reflexivity|].
  destruct (Qle_bool _ _); simpl; [reflexivity | now rewrite IH].
Qed.

Lemma by_distance_length (l : list (Document * Vector)) :
  length (Retrieval.by_distance distance qv l) = length l.
Proof.
  induction l as [|x l IH]; simpl; [reflexivity|].
  now rewrite insert_entry_length, IH.
Qed.

Lemma nearest_length (k : nat) (l : list (Document * Vector)) :
  length (Retrieval.nearest distance qv k l) = Nat.min k (length l).
Proof.
  unfold Retrieval.nearest. now rewrite length_firstn, by_distance_length.
Qed.

Lemma not_closer_flip (x y : Document * Vector) :
  Qle_bool (Retrieval.dist_to distance qv x) (Retrieval.dist_to distance qv y) = false ->
  closer y x.
Proof.
  intro H. unfold Retrieval.closer. apply Qlt_le_weak, Qnot_le_lt.
  intro Hle. apply Qle_bool_iff in Hle. congruence.
Qed.

Lemma insert_entry_head (a x : Document * Vector) (l : list (Document * Vector)) :
  HdRel closer a l -> closer a x ->
  HdRel closer a (Retrieval.insert_entry distance qv x l).
Proof.
  intros Hl Hx. destruct l as [|y l]; simpl.
  - now constructor.
  - destruct (Qle_bool _ _); constructor; [exact Hx|].
    now apply HdRel_inv in Hl.
Qed.

Lemma insert_entry_sorted (x : Document * Vector) (l : list (Document * Vector)) :
  Sorted closer l -> Sorted closer (Retrieval.insert_entry distance qv x l).
Proof.
  induction l as [|y l IH]; intro Hs; simpl.
  - repeat constructor.
  - destruct (Qle_bool _ _) eqn:E.
    + constructor; [exact Hs|]. constructor. now apply Qle_bool_iff.
    + apply Sorted_inv in Hs. destruct Hs as [Hs Hh].
      constructor; [now apply IH|].
      apply insert_entry_head; [exact Hh | now apply not_closer_flip].
Qed.

Lemma by_distance_sorted (l : list (Document * Vector)) :
  Sorted closer (Retrieval.by_distance distance qv l).
Proof.
  induction l as [|x l IH]; simpl; [constructor|].
  now apply insert_entry_sorted.
Qed.

Lemma firstn_sorted (k : nat) (l : list (Document * Vector)) :
  Sorted closer l -> Sorted closer (firstn k l).
Proof.
  revert l. induction k as [|k IH]; intros [|x l] Hs; simpl; try constructor.
  - apply IH. now apply Sorted_inv in Hs.
  - apply Sorted_inv in Hs. destruct Hs as [_ Hh].
    destruct l as [|y l]; destruct k; simpl; constructor.
    now apply HdRel_inv in Hh.
Qed.

Lemma nearest_ascending (k : nat) (l : list (Document * Vector)) :
  Spec.ascending distance qv (Retrieval.nearest distance qv k l).
Proof.
  unfold Spec.ascending, Retrieval.nearest.
  apply firstn_sorted, by_distance_sorted.
Qed.

(** Sorting keeps every entry of the index. *)
Lemma insert_entry_In (x y : Document * Vector) (l : list (Document * Vector)) :
  In y (Retrieval.insert_entry distance qv x l) <-> y = x \/ In y l.
Proof.
  induction l as [|z l IH]; simpl.
  - intuition congruence.
  - destruct (Qle_bool _ _); simpl; [intuition congruence|].
    rewrite IH. intuition congruence.
Qed.

Lemma by_distance_In (y : Document * Vector) (l : list (Document * Vector)) :
  In y (Retrieval.by_distance distance qv l) <-> In y l.
Proof.
  induction l as [|x l IH]; simpl; [tauto|].
  rewrite insert_entry_In, IH. intuition congruence.
Qed.

Lemma firstn_incl (k : nat) (y : Document * Vector) (l : list (Document * Vector)) :
  In y (firstn k l) -> In y l.
Proof.
  revert l. induction k as [|k IH]; intros [|x l]; simpl; try tauto.
  intros [H|H]; [now left | right; now apply IH].
Qed.

Lemma nearest_In (k : nat) (y : Document * Vector) (l : list (Document * Vector)) :
  In y (Retrieval.nearest distance qv k l) -> In y l.
Proof.
  unfold Retrieval.nearest. intro H.
  apply by_distance_In. now apply firstn_incl in H.
Qed.
End Nearest.

Lemma map_fst_combine_seq (A : Type) (l : list A) (start : nat) :
  map fst (combine l (seq start (length l))) = l /\
  map snd (combine l (seq start (length l))) = seq start (length l).
Proof.
  revert start. induction l as [|x l IH]; intro start; simpl; [split; reflexivity|].
  destruct (IH (S start)) as [H1 H2]. now rewrite H1, H2.
Qed.

Lemma embed_all_chunks (emb : HuggingFaceEmbeddings) (chunks : list Document) :
  forall l, Retrieval.embed_all emb chunks = Some l -> map fst l = chunks.
Proof.
  induction chunks as [|c chunks IH]; simpl; intros l H.
  - now inversion H.
  - destruct (embed emb (page_content c)); [|discriminate].
    destruct (Retrieval.embed_all emb chunks) as [l'|]; [|discriminate].
    inversion H; subst. simpl. now rewrite (IH l').
Qed.

(** A built index holds the chunks in sequence order, one vector each, and
    is bound to the embedder that built it. *)
Lemma build_index (chunks : list Document) (emb : HuggingFaceEmbeddings) (index : FAISS) :
  Retrieval.build chunks emb = Some index ->
  map fst (entries index) = chunks /\ embedder index = emb /\ chunks <> [].
Proof.
  unfold Retrieval.build. intro H.
  destruct chunks as [|c chunks]; [discriminate|].
  destruct (Retrieval.embed_all emb (c :: chunks)) as [l|] eqn:E; [|discriminate].
  inversion H; subst. simpl. repeat split.
  - now apply embed_all_chunks in E.
  - discriminate.
Qed.

Lemma build_index_size (chunks : list Document) (emb : HuggingFaceEmbeddings) (index : FAISS) :
  Retrieval.build chunks emb = Some index ->
  length (entries index) = length chunks.
Proof.
  intro H. apply build_index in H. destruct H as [H _].
  now rewrite <- H, length_map.
Qed.

(** A query whose question embeds returns the nearest entries with their
    ranks. *)
Lemma query_result (distance : Vector -> Vector -> Q) (index : FAISS)
      (q : str) (qv : Vector) (k : nat) :
  embed (embedder index) q = Some qv ->
  exists ranked,
    Retrieval.query distance index q k = Some ranked /\
    map fst ranked = map fst (Retrieval.nearest distance qv k (entries index)) /\
    map snd ranked = seq 1 (Nat.min k (length (entries index))) /\
    length ranked = Nat.min k (length (entries index)).
Proof.
  intro H. unfold Retrieval.query. rewrite H. eexists. split; [reflexivity|].
  set (hits := map fst (Retrieval.nearest distance qv k (entries index))).
  assert (Hn : length hits = Nat.min k (length (entries index))).
  { unfold hits. now rewrite length_map, nearest_length. }
  destruct (map_fst_combine_seq hits 1) as [H1 H2].
  repeat split.
  - exact H1.
  - now rewrite H2, Hn.
  - rewrite <- Hn, <- (length_map fst), H1. reflexivity.
Qed.

Lemma query_embeds (distance : Vector -> Vector -> Q) (index : FAISS)
      (q : str) (k : nat) (ranked : list (Document * nat)) :
  Retrieval.query distance index q k = Some ranked ->
  exists qv, embed (embedder index) q = Some qv.
Proof.
  unfold Retrieval.query. destruct (embed (embedder index) q) as [qv|]; [|discriminate].
  intros _. now exists qv.
Qed.

(* ------------------------------------------------------------------ *)
(** ** The session state machine *)

(** C1.  An ask while the Session is EMPTY ([qa_chain] is [None]) fails with
    the NotReadyError, status 400, and leaves the whole process state as it
    was; in [main.py] and in [app.py] alike. *)
Theorem ask_in_empty_is_not_ready
        (menv : Main.AskEnv) (aenv : App.AskEnv) (q : str)
        (st : Main.State) (ast : App.State)
        (Hmain : Main.qa_chain st = None) (Happ : App.qa_chain ast = None) :
  Main.ask_question menv q st = (Raised Spec.NotReadyError, st) /\
  http_status (fst (Main.ask_question menv q st)) = 400%Z /\
  App.ask_question aenv q ast =
    (App.JSONResponse 400 (Text "Upload and process a PDF first."), ast) /\
  App.status_of (fst (App.ask_question aenv q ast)) = 400%Z.
Proof.
  rewrite (main_ask_not_ready menv q st Hmain).
  rewrite (app_ask_not_ready aenv q ast Happ).
  repeat split.
Qed.

Lemma ask_in_empty_is_not_ready_witness :
  Main.ask_question Sample.main_ask "What is Alpha?" Sample.main_start =
    (Raised Spec.NotReadyError, Sample.main_start) /\
  http_status (fst (Main.ask_question Sample.main_ask "What is Alpha?" Sample.main_start))
    = 400%Z /\
  App.ask_question Sample.app_ask "What is Alpha?" Sample.app_start =
    (App.JSONResponse 400 (Text "Upload and process a PDF first."), Sample.app_start) /\
  App.status_of (fst (App.ask_question Sample.app_ask "What is Alpha?" Sample.app_start))
    = 400%Z.
Proof.
  exact (ask_in_empty_is_not_ready Sample.main_ask Sample.app_ask "What is Alpha?"
           Sample.main_start Sample.app_start eq_refl eq_refl).
Defined.







Example sample_is_ready :
  Spec.READY Sample.main_ready /\ App.qa_chain Sample.app_ready <> None.
Proof. split; [reflexivity | discriminate]. Qed.

(* ------------------------------------------------------------------ *)
(** ** Retrieval and the number of sources *)

(** C4.  With the Indexer and the Retriever of the specification standing for
    FAISS: a query with parameter [k] on an index built over [n] chunks
    returns exactly [min k n] chunks, ranked 1, 2, ... in non-decreasing
    distance to the embedded question; and after an upload into such an
    index, a successful ask reports [num_sources = min 4 num_chunks] for the
    current document. *)
Theorem retrieval_returns_min_k_nearest
        (distance : Vector -> Vector -> Q)
        (chunks : list Document) (emb : HuggingFaceEmbeddings) (index : FAISS)
        (q : str) (qv : Vector) (k : nat)
        (uenv : Main.UploadEnv) (file : UploadFile) (st st1 st2 : Main.State)
        (ubody : Main.UploadBody) (complete : list Document -> str -> Outcome str)
        (q' : str) (body : Main.AskBody)
        (Hbuild : Retrieval.build chunks emb = Some index)
        (Hembed : embed emb q = Some qv)
        (Hindexer : forall docs e, Main.FAISS_from_documents uenv docs e = Retrieval.indexer docs e)
        (Hupload : Main.upload_pdf uenv file st = (Returned ubody, st1))
        (Hask : Main.ask_question
                  {| Main.qa_chain_call := Retrieval.answer distance complete |} q' st1
                = (Returned body, st2)) :
  (exists ranked,
      Retrieval.query distance index q k = Some ranked /\
      length ranked = Nat.min k (length chunks) /\
      map snd ranked = seq 1 (Nat.min k (length chunks)) /\
      map fst ranked = map fst (Retrieval.nearest distance qv k (entries index)) /\
      Spec.ascending distance qv (Retrieval.nearest distance qv k (entries index)) /\
      (forall c, In c (map fst ranked) -> In c chunks)) /\
  Main.ask_document_info body = Some (Main.document_info ubody) /\
  Main.num_sources body = Nat.min 4 (Main.num_chunks (Main.document_info ubody)).
Proof.
  split.
  - pose proof (build_index_size _ _ Hbuild) as Hsize.
    destruct (build_index _ _ Hbuild) as (Hchunks & Hemb & _).
    rewrite <- Hemb in Hembed.
    destruct (query_result distance index q k Hembed) as (ranked & Hq & Hf & Hs & Hl).
    exists ranked. rewrite <- Hsize. repeat split; auto.
    + apply nearest_ascending.
    + intros c Hc. rewrite Hf in Hc. rewrite <- Hchunks.
      apply in_map_iff in Hc. destruct Hc as (x & Hx & Hin).
      apply in_map_iff. exists x. split; [exact Hx|].
      now apply nearest_In in Hin.
  - apply upload_success_inv in Hupload.
    destruct Hupload as (emb0 & name & content & documents & docs & index0 &
                         _ & _ & _ & _ & _ & _ & _ & Hfaiss & Hbody & Hchain & Hinfo & _).
    rewrite Hindexer in Hfaiss. unfold Retrieval.indexer in Hfaiss.
    destruct (Retrieval.build docs emb0) as [built|] eqn:Hb; [|discriminate].
    inversion Hfaiss; subst built. apply build_index_size in Hb.
    apply ask_returned_inv in Hask.
    destruct Hask as (chain & r & Hc & _ & Hcall & _ & Hbd).
    rewrite Hchain in Hc. inversion Hc; subst chain. clear Hc.
    cbn [Main.qa_chain_call] in Hcall. unfold Retrieval.answer in Hcall.
    cbn [retriever vectorstore Py.k return_source_documents] in Hcall.
    destruct (Retrieval.query distance index0 q' 4) as [ranked|] eqn:Hq; [|discriminate].
    destruct (complete (map fst ranked) q') as [text|]; [|discriminate].
    inversion Hcall; subst r. clear Hcall.
    destruct (query_embeds _ _ _ _ Hq) as (qv' & Hqv).
    destruct (query_result distance index0 q' 4 Hqv) as (ranked' & Hq' & _ & _ & Hl).
    rewrite Hq in Hq'. inversion Hq'; subst ranked'.
    subst body. cbn [Main.ask_document_info Main.num_sources Main.get_source_documents
                     Main.source_documents].
    rewrite append_sources_length, length_map, Hl, Hb.
    split; [congruence|]. rewrite Hbody. reflexivity.
Qed.

Lemma retrieval_returns_min_k_nearest_witness :
  exists body,
    fst (Main.ask_question Sample.main_ask "Delta" Sample.main_ready) = Returned body /\
    Main.num_sources body = 2 /\
    Main.ask_document_info body = Main.current_document_info Sample.main_ready.
Proof.
  eexists. split; [reflexivity|].
  epose proof (@retrieval_returns_min_k_nearest Sample.sq_dist
                 [Sample.alpha; Sample.delta] Sample.by_length _ "Delta" _ 4
                 (Sample.main_upload [Sample.alpha; Sample.delta])
                 (Sample.pdf "paper.pdf") Sample.main_start Sample.main_ready _ _
                 Sample.echo "Delta" _
                 eq_refl eq_refl (fun _ _ => eq_refl) eq_refl eq_refl) as H.
  destruct H as (_ & Hinfo & Hn). split; [exact Hn | exact Hinfo].
Defined.

(* ------------------------------------------------------------------ *)
(** ** Error statuses of an upload *)

(** C5.  In [main.py] an upload whose loader yields no documents does not
    leave with status 400: the [HTTPException] of line 86 is raised inside
    the [try] and the [except Exception] clause of line 139 turns it into a
    500 whose detail quotes it.  Here for [scan.pdf], with the embeddings
    loaded and every call before the loader succeeding. *)
Theorem upload_without_documents_answers_500 :
  Main.PyPDFLoader_load (Sample.main_upload []) "/tmp/tmpk3x9.pdf" = Returned [] /\
  fst (Main.upload_pdf (Sample.main_upload []) (Sample.pdf "scan.pdf") Sample.main_start)
    = Raised (HTTPException 500 (ErrorProcessingPDF Spec.ExtractionError)) /\
  http_status
    (fst (Main.upload_pdf (Sample.main_upload []) (Sample.pdf "scan.pdf") Sample.main_start))
    = 500%Z /\
  http_status (Raised (A:=Main.UploadBody) Spec.ExtractionError) = 400%Z.
Proof. repeat split. Qed.

(** C6.  [app.py] does not look at the file name: the upload of [notes.txt]
    is processed, answers 200 and replaces [qa_chain]; [main.py] refuses the
    same file with the 400 of its file-type validation and an unchanged
    state. *)
Theorem app_upload_accepts_any_extension :
  endswith (lower (filename (Sample.pdf "notes.txt"))) ".pdf" = false /\
  App.status_of
    (fst (App.upload_pdf Sample.app_upload (Sample.pdf "notes.txt") Sample.app_start))
    = 200%Z /\
  App.qa_chain Sample.app_start = None /\
  App.qa_chain
    (snd (App.upload_pdf Sample.app_upload (Sample.pdf "notes.txt") Sample.app_start))
    <> None /\
  Main.upload_pdf (Sample.main_upload [Sample.alpha; Sample.delta])
    (Sample.pdf "notes.txt") Sample.main_start
    = (Raised Spec.ValidationError_file_type, Sample.main_start).
Proof.
  repeat split. discriminate.
Qed.

(* ------------------------------------------------------------------ *)
(** ** Blank questions *)

(** C7.  [app.py] does not look at the question: with a document loaded, the
    blank question of three spaces is handed to the chain and answered with
    status 200; [main.py] refuses the same question with the 400 of its
    validation and leaves the chain alone. *)
Theorem app_ask_runs_chain_on_blank_question :
  blank "   " = true /\
  App.status_of (fst (App.ask_question Sample.app_ask "   " Sample.app_ready)) = 200%Z /\
  App.chain_queries Sample.app_ready = [] /\
  App.chain_queries (snd (App.ask_question Sample.app_ask "   " Sample.app_ready))
    = ["   "] /\
  Main.ask_question Sample.main_ask "   " Sample.main_ready
    = (Raised Spec.ValidationError_empty_question, Sample.main_ready).
Proof. repeat split. Qed.

(* ------------------------------------------------------------------ *)
(** ** The temporary file *)

(** C8.  The temporary file is not always removed.  [app.py] writes the
    upload to [/tmp/<filename>] and never removes it: after a successful
    upload the file is still there.  [main.py] removes the file only through
    [pdf_path], which is bound after the write: when the write raises, the
    upload answers 500 and the file [NamedTemporaryFile] created is still
    there. *)
Theorem temporary_file_is_left_behind :
  (App.status_of
     (fst (App.upload_pdf Sample.app_upload (Sample.pdf "paper.pdf") Sample.app_start))
     = 200%Z /\
   App.tmp Sample.app_start = [] /\
   App.tmp (snd (App.upload_pdf Sample.app_upload (Sample.pdf "paper.pdf") Sample.app_start))
     = ["/tmp/paper.pdf"]) /\
  (http_status
     (fst (Main.upload_pdf Sample.main_upload_disk_full (Sample.pdf "paper.pdf")
             Sample.main_start))
     = 500%Z /\
   Main.tmp Sample.main_start = [] /\
   Main.tmp (snd (Main.upload_pdf Sample.main_upload_disk_full (Sample.pdf "paper.pdf")
                    Sample.main_start))
     = ["/tmp/tmpk3x9.pdf"]).
Proof. repeat split. Qed.

(** On the other paths of [main.py] the file is removed: the successful
    upload and the upload that fails after [pdf_path] is bound leave the
    temporary directory as it was. *)
Example main_upload_cleans_up :
  Main.tmp Sample.main_ready = [] /\
  Main.tmp (snd (Main.upload_pdf Sample.main_upload_index_fails (Sample.pdf "paper.pdf")
                   Sample.main_start)) = [].
Proof. repeat split. Qed.

(* ------------------------------------------------------------------ *)
(** ** The sources of an answer *)

(** C9.  In a successful ask response every source has a preview of at most
    203 characters: the text of its chunk when that has at most 200
    characters, and otherwise its first 200 characters followed by three
    dots. *)
Theorem content_preview_is_bounded
        (env : Main.AskEnv) (q : str) (st st' : Main.State) (body : Main.AskBody)
        (Hask : Main.ask_question env q st = (Returned body, st')) :
  Forall (fun src => len (Main.content_preview src) <= 203) (Main.sources body) /\
  exists chain r,
    Main.qa_chain st = Some chain /\
    Main.qa_chain_call env chain q = Returned r /\
    Forall2 (fun doc src =>
               (len (page_content doc) <= 200 ->
                Main.content_preview src = page_content doc) /\
               (200 < len (page_content doc) ->
                Main.content_preview src = slice_to 200 (page_content doc) ++ "..."))
            (Main.get_source_documents r) (Main.sources body).
Proof.
  apply ask_returned_inv in Hask.
  destruct Hask as (chain & r & Hc & _ & Hcall & _ & Hbody).
  subst body. cbn [Main.sources].
  pose proof (append_sources_previews (Main.get_source_documents r) 0) as Hp.
  split.
  - induction Hp as [|doc src docs srcs Hs _ IH]; constructor; [|exact IH].
    rewrite Hs. apply preview_length.
  - exists chain, r. repeat split; auto.
    induction Hp as [|doc src docs srcs Hs _ IH]; constructor; [|exact IH].
    rewrite Hs. apply preview_cases.
Qed.

Lemma content_preview_is_bounded_witness :
  Forall (fun src => len (Main.content_preview src) <= 203)
    [ {| Main.chunk_id := 1; Main.page := PageNumber 1; Main.content_preview := "Delta" |};
      {| Main.chunk_id := 2; Main.page := PageNumber 0;
         Main.content_preview := "Alpha Beta Gamma" |} ].
Proof.
  exact (proj1 (@content_preview_is_bounded Sample.main_ask "Delta" Sample.main_ready
                  _ _ eq_refl)).
Defined.

(** C10.  In a successful ask response [num_sources] is the length of the
    source list, the [chunk_id]s are 1, 2, ..., [num_sources], and entry
    number [i] describes the [i]-th document the chain returned: [chunk_id]
    is the retrieval rank. *)
Theorem sources_are_numbered_by_rank
        (env : Main.AskEnv) (q : str) (st st' : Main.State) (body : Main.AskBody)
        (Hask : Main.ask_question env q st = (Returned body, st')) :
  Main.num_sources body = length (Main.sources body) /\
  map Main.chunk_id (Main.sources body) = seq 1 (Main.num_sources body) /\
  exists chain r,
    Main.qa_chain st = Some chain /\
    Main.qa_chain_call env chain q = Returned r /\
    length (Main.get_source_documents r) = Main.num_sources body /\
    Forall2 (fun rd src => Spec.source_of (fst rd) (snd rd) src)
            (combine (seq 1 (Main.num_sources body)) (Main.get_source_documents r))
            (Main.sources body).
Proof.
  apply ask_returned_inv in Hask.
  destruct Hask as (chain & r & Hc & _ & Hcall & _ & Hbody).
  subst body. cbn [Main.sources Main.num_sources].
  rewrite append_sources_length.
  split; [reflexivity|]. split; [apply (append_sources_chunk_ids _ 0)|].
  exists chain, r. repeat split; auto.
  apply (append_sources_ranked _ 0).
Qed.

Lemma sources_are_numbered_by_rank_witness :
  exists body,
    fst (Main.ask_question Sample.main_ask "Delta" Sample.main_ready) = Returned body /\
    Main.num_sources body = length (Main.sources body) /\
    map Main.chunk_id (Main.sources body) = seq 1 (Main.num_sources body).
Proof.
  eexists. split; [reflexivity|].
  pose proof (@sources_are_numbered_by_rank Sample.main_ask "Delta" Sample.main_ready
                _ _ eq_refl) as H.
  destruct H as (Hn & Hids & _). split; [exact Hn | exact Hids].
Defined.

(** The rank is not the position of the chunk in the document: for the
    question [Delta] the second chunk of the sample document comes first. *)
Example rank_is_not_sequence_id :
  exists body,
    fst (Main.ask_question Sample.main_ask "Delta" Sample.main_ready) = Returned body /\
    map (fun src => (Main.chunk_id src, Main.page src)) (Main.sources body)
    = [(1, PageNumber 1); (2, PageNumber 0)].
Proof. eexists. split; reflexivity. Qed.


(* ------------------------------------------------------------------ *)
(** ** More on uploads in [main.py] *)

(** The four ways out of [upload_pdf]. *)
Lemma upload_outcome_cases (env : Main.UploadEnv) (file : UploadFile)
      (st st' : Main.State) (o : Outcome Main.UploadBody) :
  Main.upload_pdf env file st = (o, st') ->
  (endswith (lower (filename file)) ".pdf" = false /\
   o = Raised Spec.ValidationError_file_type /\ st' = st) \/
  (endswith (lower (filename file)) ".pdf" = true /\
   ((Main.embeddings st = None /\ st' = st /\
     o = Raised (HTTPException 500
                   (Text "Embeddings model not loaded. Please restart the server."))) \/
    (exists e, o = Raised (HTTPException 500 (ErrorProcessingPDF e))) \/
    (exists body, o = Returned body /\
                  Main.key_missing (Main.GROQ_API_KEY st) = false))).
Proof.
  unfold Main.upload_pdf. intro H.
  destruct (endswith (lower (filename file)) ".pdf") eqn:Hn; cbn [negb] in H.
  2:{ left. inversion H; subst. repeat split. }
  right. split; [reflexivity|].
  destruct (Main.embeddings st) as [emb|] eqn:He.
  2:{ left. inversion H; subst. repeat split. }
  right.
  run_upload exists_file_create H; try discriminate; inversion H; subst;
    first [ left; eexists; reflexivity
          | right; eexists; split; [reflexivity | first [assumption | reflexivity]] ].
Qed.

(** An upload leaves the embeddings, the API key and the record of chain
    calls alone. *)
Lemma upload_preserves_config (env : Main.UploadEnv) (file : UploadFile)
      (st st' : Main.State) (o : Outcome Main.UploadBody) :
  Main.upload_pdf env file st = (o, st') ->
  Main.embeddings st' = Main.embeddings st /\
  Main.GROQ_API_KEY st' = Main.GROQ_API_KEY st /\
  Main.chain_queries st' = Main.chain_queries st.
Proof.
  destruct o as [body|e]; intro H.
  - unfold Main.upload_pdf in H.
    destruct (negb (endswith (lower (filename file)) ".pdf")); [discriminate|].
    destruct (Main.embeddings st) as [emb|] eqn:He; [|discriminate].
    run_upload exists_file_create H; try discriminate;
      inversion H; subst; cbn; now rewrite He.
  - apply upload_failure_cases in H.
    destruct H as [H | (eu & chain & info & _ & _ & _ & _ & H)];
      rewrite H; repeat split.
Qed.

Lemma remove_created_fresh (p : str) (fs : Files) :
  exists_file p fs = false -> remove_file p (create_file p fs) = fs.
Proof.
  intro H. unfold create_file. rewrite H. unfold remove_file. simpl.
  rewrite String.eqb_refl. simpl.
  induction fs as [|q fs IH]; simpl; [reflexivity|].
  unfold exists_file in H. simpl in H. apply orb_false_iff in H.
  destruct H as [Hq Hfs]. rewrite Hq. simpl. now rewrite (IH Hfs).
Qed.

Lemma serve_preserves_config (r : Main.Request) (st st' : Main.State) (a : Main.Reply) :
  Main.serve r st = (a, st') ->
  Main.embeddings st' = Main.embeddings st /\
  Main.GROQ_API_KEY st' = Main.GROQ_API_KEY st.
Proof.
  destruct r as [|env file|env q| |]; unfold Main.serve; intro H.
  - inversion H; subst. split; reflexivity.
  - destruct (Main.upload_pdf env file st) as [o s1] eqn:Hu.
    inversion H; subst. apply upload_preserves_config in Hu. tauto.
  - destruct (Main.ask_question env q st) as [o s1] eqn:Ha.
    inversion H; subst. unfold Main.ask_question in Ha.
    destruct (Main.qa_chain st) as [chain|]; [|inversion Ha; subst; split; reflexivity].
    destruct (negb (truthy (strip q))); [inversion Ha; subst; split; reflexivity|].
    cbv [try_except Main.ask_try bind call modify get ret raise] in Ha.
    destruct (Main.qa_chain_call env chain q); inversion Ha; subst; split; reflexivity.
  - inversion H; subst. split; reflexivity.
  - rewrite reset_state in H. inversion H; subst. split; reflexivity.
Qed.

(** X1.  An upload of [main.py] answers 200, 400 or 500, and 400 exactly
    when the file name does not end in [.pdf] (in any letter case): every
    other failure, whatever raised it, leaves as a 500. *)
Theorem upload_status_codes (env : Main.UploadEnv) (file : UploadFile) (st : Main.State) :
  (Trace.upload_status env file st = 200 \/
   Trace.upload_status env file st = 400 \/
   Trace.upload_status env file st = 500)%Z /\
  (Trace.upload_status env file st = 400%Z <->
   endswith (lower (filename file)) ".pdf" = false).
Proof.
  unfold Trace.upload_status.
  destruct (Main.upload_pdf env file st) as [o st'] eqn:H.
  apply upload_outcome_cases in H. cbn [fst].
  destruct H as [(Hn & Ho & _) | (Hn & [(_ & _ & Ho) | [(e & Ho) | (body & Ho & _)]])];
    subst o; rewrite Hn; cbn; (split; [auto | split; intro; first [reflexivity | discriminate]]).
Qed.

(** X2.  Without the API key ([GROQ_API_KEY] unset or empty) no upload
    succeeds: it answers 400 or 500, the Session slot stays as it was, and
    the status call reports [groq_api_configured = false]. *)
Theorem upload_fails_without_api_key
        (env : Main.UploadEnv) (file : UploadFile) (st : Main.State)
        (Hkey : Main.key_missing (Main.GROQ_API_KEY st) = true) :
  (exists e, fst (Main.upload_pdf env file st) = Raised e) /\
  (Trace.upload_status env file st = 400 \/ Trace.upload_status env file st = 500)%Z /\
  Main.session (snd (Main.upload_pdf env file st)) = Main.session st /\
  Main.groq_api_configured (Main.get_status st) = false.
Proof.
  unfold Trace.upload_status.
  destruct (Main.upload_pdf env file st) as [o st'] eqn:H. cbn [fst snd].
  pose proof (upload_outcome_cases _ _ _ H) as Hc.
  assert (Ho : exists e, o = Raised e).
  { destruct Hc as [(_ & Ho & _) | (_ & [(_ & _ & Ho) | [(e & Ho) | (body & _ & Hk)]])];
      try (subst o; eexists; reflexivity).
    rewrite Hkey in Hk. discriminate. }
  destruct Ho as (e & Ho). subst o.
  split; [now exists e|]. split.
  - destruct Hc as [(_ & Ho & _) | (_ & [(_ & _ & Ho) | [(e' & Ho) | (body & Ho & _)]])];
      inversion Ho; subst; cbn; auto.
  - split.
    + apply upload_failure_cases in H.
      destruct H as [H | (eu & chain & info & _ & _ & Hk & _)];
        [rewrite H; reflexivity | congruence].
    + unfold Main.get_status. cbn. now rewrite Hkey.
Qed.

Lemma upload_fails_without_api_key_witness :
  (exists e, fst (Main.upload_pdf Fixture.good_upload (Sample.pdf "paper.pdf")
                    Fixture.no_api_key) = Raised e) /\
  (Trace.upload_status Fixture.good_upload (Sample.pdf "paper.pdf") Fixture.no_api_key = 400 \/
   Trace.upload_status Fixture.good_upload (Sample.pdf "paper.pdf") Fixture.no_api_key = 500)%Z /\
  Main.session (snd (Main.upload_pdf Fixture.good_upload (Sample.pdf "paper.pdf")
                       Fixture.no_api_key)) = Main.session Fixture.no_api_key /\
  Main.groq_api_configured (Main.get_status Fixture.no_api_key) = false.
Proof.
  exact (upload_fails_without_api_key Fixture.good_upload (Sample.pdf "paper.pdf")
           Fixture.no_api_key eq_refl).
Defined.

(** X3.  The API key is looked up only after the file is stored, loaded,
    split and indexed: when all of that succeeds and the key is missing, the
    500 raised for the key is itself caught by the [except] clause and
    re-raised as a 500 whose detail quotes it; the Session is unchanged, and
    the temporary file is removed when the [os.unlink] of the [except]
    clause returns and stays when it raises. *)
Theorem missing_api_key_is_reported_after_indexing
        (env : Main.UploadEnv) (file : UploadFile) (st : Main.State)
        (emb : HuggingFaceEmbeddings) (name : str) (content : bytes)
        (documents docs : list Document) (index : FAISS)
        (Hn : endswith (lower (filename file)) ".pdf" = true)
        (He : Main.embeddings st = Some emb)
        (Ht : Main.NamedTemporaryFile env = Returned name)
        (Hr : Main.file_read env = Returned content)
        (Hw : Main.temp_file_write env content = Returned tt)
        (Hl : Main.PyPDFLoader_load env name = Returned documents)
        (Hd : documents <> [])
        (Hs : Main.split_documents env documents = Returned docs)
        (Hf : Main.FAISS_from_documents env docs emb = Returned index)
        (Hkey : Main.key_missing (Main.GROQ_API_KEY st) = true) :
  Main.upload_pdf env file st =
  (Raised (HTTPException 500
             (ErrorProcessingPDF
                (HTTPException 500 (Text "GROQ_API_KEY environment variable not set")))),
   Main.set_tmp (match Main.unlink_line_143 env with
                 | Returned _ => remove_file name (create_file name (Main.tmp st))
                 | Raised _ => create_file name (Main.tmp st)
                 end) st).
Proof.
  unfold Main.upload_pdf. rewrite Hn, He.
  cbv [negb try_except Main.upload_try Main.upload_except bind call modify get ret
       raise Main.raise_if try_pass Main.os_unlink Main.on_proc Main.set_pdf_path
       Main.proc Main.pdf_path].
  rewrite Ht, Hr, Hw, Hl.
  destruct documents as [|d documents]; [congruence|].
  cbn [Main.is_empty]. rewrite Hs, Hf.
  cbn [Main.GROQ_API_KEY Main.set_tmp Main.tmp Main.proc Main.pdf_path]. rewrite Hkey.
  cbn [Main.set_tmp Main.tmp Main.proc Main.pdf_path].
  rewrite exists_file_create.
  destruct (Main.unlink_line_143 env); reflexivity.
Qed.

Lemma missing_api_key_is_reported_after_indexing_witness :
  Main.upload_pdf Fixture.good_upload (Sample.pdf "paper.pdf") Fixture.no_api_key =
  (Raised (HTTPException 500
             (ErrorProcessingPDF
                (HTTPException 500 (Text "GROQ_API_KEY environment variable not set")))),
   Main.set_tmp (match Main.unlink_line_143 Fixture.good_upload with
                 | Returned _ =>
                     remove_file "/tmp/tmpk3x9.pdf"
                       (create_file "/tmp/tmpk3x9.pdf" (Main.tmp Fixture.no_api_key))
                 | Raised _ => create_file "/tmp/tmpk3x9.pdf" (Main.tmp Fixture.no_api_key)
                 end)
     Fixture.no_api_key).
Proof.
  refine (@missing_api_key_is_reported_after_indexing Fixture.good_upload
            (Sample.pdf "paper.pdf") Fixture.no_api_key Sample.by_length
            "/tmp/tmpk3x9.pdf" "%PDF-1.4" [Sample.alpha; Sample.delta]
            [Sample.alpha; Sample.delta] _ eq_refl eq_refl eq_refl eq_refl eq_refl
            eq_refl _ eq_refl eq_refl eq_refl).
  discriminate.
Defined.

Lemma upload_needs_embeddings (env : Main.UploadEnv) (file : UploadFile)
      (st st' : Main.State) (body : Main.UploadBody) :
  Main.upload_pdf env file st = (Returned body, st') -> Main.embeddings st <> None.
Proof.
  intro H. apply upload_success_inv in H.
  destruct H as (emb & _ & _ & _ & _ & _ & _ & He & _). congruence.
Qed.

(** X4.  A process whose embeddings model failed to load never gets a
    document in: whatever requests are served, no upload succeeds and the
    health check keeps reporting [embeddings_loaded = false]; and if it
    started EMPTY, every ask is refused with the NotReadyError. *)
Theorem no_upload_succeeds_without_embeddings
        (rs : list Main.Request) (st : Main.State)
        (Hemb : Main.embeddings st = None) :
  Forall Spec.no_successful_upload (fst (Main.serve_all rs st)) /\
  Main.embeddings_loaded (Main.health_check (snd (Main.serve_all rs st))) = false /\
  (Spec.EMPTY st ->
   Forall Spec.ask_not_ready (fst (Main.serve_all rs st)) /\
   Spec.EMPTY (snd (Main.serve_all rs st))).
Proof.
  assert (H : Forall Spec.no_successful_upload (fst (Main.serve_all rs st)) /\
              Main.embeddings (snd (Main.serve_all rs st)) = None).
  { revert st Hemb. induction rs as [|r rs IH]; intros st Hemb; simpl.
    - split; [constructor | exact Hemb].
    - destruct (Main.serve r st) as [a st1] eqn:Hr.
      destruct (Main.serve_all rs st1) as [al st2] eqn:Hrs.
      pose proof (@serve_preserves_config r st st1 a Hr) as (He1 & _).
      rewrite Hemb in He1. specialize (IH st1 He1). rewrite Hrs in IH.
      destruct IH as [IH1 IH2]. simpl in *. split; [|exact IH2].
      constructor; [|exact IH1].
      destruct r as [|env file|env q| |]; unfold Main.serve in Hr.
      + inversion Hr; subst; exact I.
      + destruct (Main.upload_pdf env file st) as [o s1] eqn:Hu.
        inversion Hr; subst. destruct o as [body|e]; [|exact I].
        now apply upload_needs_embeddings in Hu.
      + destruct (Main.ask_question env q st); inversion Hr; subst; exact I.
      + inversion Hr; subst; exact I.
      + destruct (Main.reset_system st); inversion Hr; subst; exact I. }
  destruct H as [H1 H2]. split; [exact H1|]. split.
  - unfold Main.health_check. cbn. now rewrite H2.
  - intro He.
    destruct (@empty_until_upload rs st He H1 (or_intror Hemb)) as (Ha & Hs & _).
    now split.
Qed.

Lemma no_upload_succeeds_without_embeddings_witness :
  Forall Spec.no_successful_upload
    (fst (Main.serve_all Fixture.upload_then_ask Fixture.no_embeddings)) /\
  Main.embeddings_loaded
    (Main.health_check (snd (Main.serve_all Fixture.upload_then_ask Fixture.no_embeddings)))
    = false /\
  (Spec.EMPTY Fixture.no_embeddings ->
   Forall Spec.ask_not_ready
     (fst (Main.serve_all Fixture.upload_then_ask Fixture.no_embeddings)) /\
   Spec.EMPTY (snd (Main.serve_all Fixture.upload_then_ask Fixture.no_embeddings))).
Proof.
  exact (no_upload_succeeds_without_embeddings Fixture.upload_then_ask
           Fixture.no_embeddings eq_refl).
Defined.

(** X5.  When the temporary file was stored (the read and the write
    returned) under a name that was free, and [os.unlink] does not raise,
    the upload leaves the temporary directory exactly as it found it,
    whether it then succeeds or fails. *)
Theorem stored_upload_restores_tmp
        (env : Main.UploadEnv) (file : UploadFile) (st st' : Main.State)
        (o : Outcome Main.UploadBody)
        (emb : HuggingFaceEmbeddings) (name : str) (content : bytes)
        (Hn : endswith (lower (filename file)) ".pdf" = true)
        (He : Main.embeddings st = Some emb)
        (Ht : Main.NamedTemporaryFile env = Returned name)
        (Hr : Main.file_read env = Returned content)
        (Hw : Main.temp_file_write env content = Returned tt)
        (Hu : Main.unlink_line_130 env = Returned tt)
        (Hx : Main.unlink_line_143 env = Returned tt)
        (Hfresh : exists_file name (Main.tmp st) = false)
        (Hup : Main.upload_pdf env file st = (o, st')) :
  Main.tmp st' = Main.tmp st.
Proof.
  rewrite (main_upload_removes_bound_path _ _ _ Hn He Ht Hr Hw Hu Hx Hup).
  now apply remove_created_fresh.
Qed.

Lemma stored_upload_restores_tmp_witness :
  Main.tmp (snd (Main.upload_pdf Sample.main_upload_index_fails (Sample.pdf "paper.pdf")
                   Sample.main_ready)) = Main.tmp Sample.main_ready.
Proof.
  exact (@stored_upload_restores_tmp Sample.main_upload_index_fails
           (Sample.pdf "paper.pdf") Sample.main_ready _ _ Sample.by_length
           "/tmp/tmpk3x9.pdf" "%PDF-1.4" eq_refl eq_refl eq_refl eq_refl eq_refl
           eq_refl eq_refl eq_refl (surjective_pairing _)).
Defined.

(** X6.  An upload, successful or not, never calls the QA chain and never
    changes the embeddings model or the API key of the process. *)
Theorem upload_never_calls_the_chain
        (env : Main.UploadEnv) (file : UploadFile) (st : Main.State) :
  Main.chain_queries (snd (Main.upload_pdf env file st)) = Main.chain_queries st /\
  Main.embeddings (snd (Main.upload_pdf env file st)) = Main.embeddings st /\
  Main.GROQ_API_KEY (snd (Main.upload_pdf env file st)) = Main.GROQ_API_KEY st.
Proof.
  destruct (Main.upload_pdf env file st) as [o st'] eqn:H.
  apply upload_preserves_config in H. cbn [snd]. tauto.
Qed.

Lemma upload_session_independent (env : Main.UploadEnv) (file : UploadFile)
      (st : Main.State) (c : option RetrievalQA) (i : option Main.DocumentInfo)
      (o o0 : Outcome Main.UploadBody) (st' st0' : Main.State) :
  (Main.upload_pdf env file st,
   Main.upload_pdf env file (Main.set_current_document_info i (Main.set_qa_chain c st)))
  = ((o, st'), (o0, st0')) ->
  o0 = o /\
  Main.tmp st0' = Main.tmp st' /\
  (forall body, o = Returned body -> Main.session st0' = Main.session st').
Proof.
  unfold Main.upload_pdf. intro H.
  cbn [Main.embeddings Main.set_current_document_info Main.set_qa_chain] in H.
  destruct (negb (endswith (lower (filename file)) ".pdf")).
  { inversion H; subst. repeat split. intros; discriminate. }
  destruct (Main.embeddings st) as [emb|] eqn:He.
  2:{ inversion H; subst. repeat split. intros; discriminate. }
  cbv [try_except Main.upload_try Main.upload_except bind call modify get ret raise
       Main.raise_if try_pass Main.os_unlink Main.on_proc Main.set_pdf_path
       Main.proc Main.pdf_path] in H.
  cbn [fst snd Main.proc Main.pdf_path Main.tmp Main.set_tmp Main.set_qa_chain
       Main.set_current_document_info Main.GROQ_API_KEY] in H.
  repeat run_step exists_file_create H;
    inversion H; subst; repeat split; intros; try discriminate.
Qed.

(** X7.  A successful upload replaces the Session wholesale: had any other
    chain and document information been stored before, the upload would
    return the same body and leave the same Session, which holds the
    information of the new document under the uploaded file name. *)
Theorem upload_ignores_previous_session
        (env : Main.UploadEnv) (file : UploadFile) (st : Main.State)
        (c : option RetrievalQA) (i : option Main.DocumentInfo)
        (body : Main.UploadBody)
        (Hok : fst (Main.upload_pdf env file st) = Returned body) :
  fst (Main.upload_pdf env file (Main.set_current_document_info i (Main.set_qa_chain c st)))
    = Returned body /\
  Main.session
    (snd (Main.upload_pdf env file
            (Main.set_current_document_info i (Main.set_qa_chain c st))))
    = Main.session (snd (Main.upload_pdf env file st)) /\
  Main.current_document_info (snd (Main.upload_pdf env file st))
    = Some (Main.document_info body) /\
  Main.info_filename (Main.document_info body) = filename file /\
  Spec.READY (snd (Main.upload_pdf env file st)).
Proof.
  destruct (Main.upload_pdf env file st) as [o st'] eqn:H1.
  destruct (Main.upload_pdf env file
              (Main.set_current_document_info i (Main.set_qa_chain c st)))
    as [o0 st0'] eqn:H2.
  cbn [fst snd] in *. subst o.
  assert (H : (Main.upload_pdf env file st,
               Main.upload_pdf env file
                 (Main.set_current_document_info i (Main.set_qa_chain c st)))
              = ((Returned body, st'), (o0, st0'))) by (now rewrite H1, H2).
  apply upload_session_independent in H. destruct H as (Ho & _ & Hs).
  apply upload_success_inv in H1.
  destruct H1 as (emb & name & content & documents & docs & index &
                  _ & _ & _ & _ & _ & _ & _ & _ & Hbody & Hchain & Hinfo & _).
  repeat split.
  - exact Ho.
  - now apply (Hs body).
  - now rewrite Hinfo, Hbody.
  - now rewrite Hbody.
  - unfold Spec.READY. now rewrite Hchain.
Qed.

Lemma upload_ignores_previous_session_witness :
  Main.session
    (snd (Main.upload_pdf Fixture.good_upload (Sample.pdf "paper.pdf")
            (Main.set_current_document_info None
               (Main.set_qa_chain (Main.qa_chain Sample.main_ready) Sample.main_start))))
  = Main.session (snd (Main.upload_pdf Fixture.good_upload (Sample.pdf "paper.pdf")
                         Sample.main_start)).
Proof.
  exact (proj1 (proj2
    (@upload_ignores_previous_session Fixture.good_upload (Sample.pdf "paper.pdf")
       Sample.main_start (Main.qa_chain Sample.main_ready) None _ eq_refl))).
Defined.

(* ------------------------------------------------------------------ *)
(** ** More on asks in [main.py] *)

(** The test [not question.strip()] is the test for a blank question. *)
Lemma not_truthy_strip (q : str) : negb (truthy (strip q)) = blank q.
Proof.
  unfold truthy. rewrite negb_involutive.
  destruct (blank q) eqn:Hb.
  - apply strip_empty_iff in Hb. now rewrite Hb.
  - apply String.eqb_neq. intro Hs. apply strip_empty_iff in Hs. congruence.
Qed.

(** The four ways out of [ask_question]. *)
Lemma ask_cases (env : Main.AskEnv) (q : str) (st : Main.State) :
  (Main.qa_chain st = None /\
   Main.ask_question env q st = (Raised Spec.NotReadyError, st)) \/
  (exists chain, Main.qa_chain st = Some chain /\
     ((blank q = true /\
       Main.ask_question env q st = (Raised Spec.ValidationError_empty_question, st)) \/
      (blank q = false /\ exists e,
         Main.qa_chain_call env chain q = Raised e /\
         Main.ask_question env q st =
         (Raised (HTTPException 500 (ErrorProcessingQuestion e)), Main.add_query q st)) \/
      (blank q = false /\ exists r body,
         Main.qa_chain_call env chain q = Returned r /\
         Main.ask_question env q st = (Returned body, Main.add_query q st)))).
Proof.
  unfold Main.ask_question.
  destruct (Main.qa_chain st) as [chain|]; [right | left; now split].
  exists chain. split; [reflexivity|].
  rewrite not_truthy_strip. destruct (blank q); [left; now split | right].
  cbv [try_except Main.ask_try bind call modify get ret raise].
  destruct (Main.qa_chain_call env chain q) as [r|e].
  - right. split; [reflexivity|]. eexists; eexists. split; reflexivity.
  - left. split; [reflexivity|]. exists e. split; reflexivity.
Qed.

(** X8.  An ask of [main.py] answers 400 exactly when no document is loaded
    or the question is blank, 500 exactly when a document is loaded, the
    question is not blank and the chain raises, and 200 exactly when the
    chain returns. *)
Theorem ask_status_codes (env : Main.AskEnv) (q : str) (st : Main.State) :
  (Trace.ask_status env q st = 400%Z <-> Main.qa_chain st = None \/ blank q = true) /\
  (Trace.ask_status env q st = 500%Z <->
   exists chain e, Main.qa_chain st = Some chain /\ blank q = false /\
                   Main.qa_chain_call env chain q = Raised e) /\
  (Trace.ask_status env q st = 200%Z <->
   exists chain r, Main.qa_chain st = Some chain /\ blank q = false /\
                   Main.qa_chain_call env chain q = Returned r).
Proof.
  unfold Trace.ask_status.
  destruct (ask_cases env q st)
    as [(Hc & Ha) | (chain & Hc & [(Hb & Ha) | [(Hb & e & He & Ha) | (Hb & r & body & Hr & Ha)]])];
    rewrite Ha; cbn [fst http_status Spec.NotReadyError Spec.ValidationError_empty_question];
    rewrite Hc.
  - repeat split; try (intro; discriminate); auto;
      intros (c & x & H & _); discriminate.
  - repeat split; try (intro; discriminate); auto;
      intros (c & x & _ & H & _); congruence.
  - repeat split; try (intro; discriminate).
    + intros [H|H]; congruence.
    + intros _. now exists chain, e.
    + intros (c & x & H1 & _ & H3). inversion H1; subst. congruence.
  - repeat split; try (intro; discriminate).
    + intros [H|H]; congruence.
    + intros (c & x & H1 & _ & H3). inversion H1; subst. congruence.
    + intros _. now exists chain, r.
Qed.

(** X9.  An ask never changes the Session, the temporary files, the
    embeddings or the API key; the chain is called (once, with the question
    as it came) exactly when a document is loaded and the question is not
    blank. *)
Theorem ask_only_records_the_query (env : Main.AskEnv) (q : str) (st : Main.State) :
  Main.session (snd (Main.ask_question env q st)) = Main.session st /\
  Main.tmp (snd (Main.ask_question env q st)) = Main.tmp st /\
  Main.embeddings (snd (Main.ask_question env q st)) = Main.embeddings st /\
  Main.GROQ_API_KEY (snd (Main.ask_question env q st)) = Main.GROQ_API_KEY st /\
  Main.chain_queries (snd (Main.ask_question env q st))
    = if Main.is_not_None (Main.qa_chain st) && negb (blank q)
      then q :: Main.chain_queries st
      else Main.chain_queries st.
Proof.
  destruct (ask_cases env q st)
    as [(Hc & Ha) | (chain & Hc & [(Hb & Ha) | [(Hb & e & He & Ha) | (Hb & r & body & Hr & Ha)]])];
    rewrite Ha, Hc; cbn [snd Main.is_not_None andb]; try rewrite Hb;
    repeat split.
Qed.

(* ------------------------------------------------------------------ *)
(** ** Invariants along a sequence of requests *)

Lemma ask_state (env : Main.AskEnv) (q : str) (st : Main.State) :
  snd (Main.ask_question env q st) = st \/
  snd (Main.ask_question env q st) = Main.add_query q st.
Proof.
  destruct (ask_cases env q st)
    as [(Hc & Ha) | (chain & Hc & [(Hb & Ha) | [(Hb & e & He & Ha) | (Hb & r & body & Hr & Ha)]])];
    rewrite Ha; auto.
Qed.

(** The chain and the document information are set and cleared together. *)
Lemma serve_keeps_slot_consistent (r : Main.Request) (st st' : Main.State) (a : Main.Reply) :
  Main.serve r st = (a, st') ->
  Main.is_not_None (Main.qa_chain st) = Main.is_not_None (Main.current_document_info st) ->
  Main.is_not_None (Main.qa_chain st') = Main.is_not_None (Main.current_document_info st').
Proof.
  destruct r as [|env file|env q| |]; unfold Main.serve; intros H Hst.
  - now inversion H; subst.
  - destruct (Main.upload_pdf env file st) as [o s1] eqn:Hu.
    inversion H; subst. destruct o as [body|e].
    + apply upload_success_inv in Hu.
      destruct Hu as (emb & name & content & documents & docs & index &
                      _ & _ & _ & _ & _ & _ & _ & _ & _ & Hchain & Hinfo & _).
      now rewrite Hchain, Hinfo.
    + apply upload_failure_cases in Hu.
      destruct Hu as [Hu | (eu & chain & info & _ & _ & _ & _ & Hu)]; rewrite Hu;
        [exact Hst | reflexivity].
  - destruct (Main.ask_question env q st) as [o s1] eqn:Ha.
    inversion H; subst.
    destruct (ask_state env q st) as [Hs|Hs]; rewrite Ha in Hs; cbn [snd] in Hs;
      rewrite Hs; exact Hst.
  - now inversion H; subst.
  - rewrite reset_state in H. now inversion H; subst.
Qed.

(** X10.  In every state the process can reach from its start, the chain
    and the document information are both present or both absent: the
    health check, the status call and the stored document information agree
    on whether a document is loaded. *)
Theorem session_slot_is_consistent
        (rs : list Main.Request) (load : Outcome HuggingFaceEmbeddings)
        (key : option str) :
  Main.document_processed (Main.health_check (snd (Main.serve_all rs (Main.initial load key))))
    = Main.system_ready (Main.get_status (snd (Main.serve_all rs (Main.initial load key)))) /\
  Main.system_ready (Main.get_status (snd (Main.serve_all rs (Main.initial load key))))
    = Main.is_not_None
        (Main.current_document
           (Main.get_status (snd (Main.serve_all rs (Main.initial load key))))).
Proof.
  split; [reflexivity|]. cbn [Main.get_status Main.system_ready Main.current_document].
  assert (H : Main.is_not_None (Main.qa_chain (Main.initial load key))
              = Main.is_not_None (Main.current_document_info (Main.initial load key)))
    by reflexivity.
  revert H. generalize (Main.initial load key) as st.
  induction rs as [|r rs IH]; intros st Hst; simpl; [exact Hst|].
  destruct (Main.serve r st) as [a st1] eqn:Hr.
  pose proof (@serve_keeps_slot_consistent r st st1 a Hr Hst) as H1.
  specialize (IH st1 H1).
  destruct (Main.serve_all rs st1) as [al st2]. exact IH.
Qed.

Lemma serve_keeps_document (r : Main.Request) (st st' : Main.State) (a : Main.Reply)
      (info : Main.DocumentInfo) :
  Main.serve r st = (a, st') ->
  Main.current_document_info st = Some info ->
  Trace.keeps_document a ->
  Trace.cleanup_returns r ->
  Trace.ask_reports info a /\ Main.current_document_info st' = Some info.
Proof.
  destruct r as [|env file|env q| |]; unfold Main.serve; intros H Hst Hk Hc.
  - inversion H; subst. split; [exact I | exact Hst].
  - destruct (Main.upload_pdf env file st) as [o s1] eqn:Hu.
    inversion H; subst. split; [exact I|].
    destruct o as [body|e]; [contradiction|].
    apply (upload_failure_frame _ _ _ Hc) in Hu. rewrite Hu. exact Hst.
  - destruct (Main.ask_question env q st) as [o s1] eqn:Ha.
    inversion H; subst. split.
    + destruct o as [body|e]; [|exact I]. cbn.
      apply ask_returned_inv in Ha.
      destruct Ha as (chain & r & _ & _ & _ & _ & Hb). subst body. exact Hst.
    + destruct (ask_state env q st) as [Hs|Hs]; rewrite Ha in Hs; cbn [snd] in Hs;
        rewrite Hs; exact Hst.
  - inversion H; subst. split; [exact I | exact Hst].
  - destruct (Main.reset_system st); inversion H; subst. contradiction.
Qed.

(** X11.  After a successful upload, and until the next successful upload
    or reset, every successful answer carries the document information of
    that upload, and so does the status call; asks and failed uploads in
    between do not disturb it, provided none of those uploads fails in its
    [os.unlink] of line 130. *)
Theorem answers_carry_the_loaded_document
        (env : Main.UploadEnv) (file : UploadFile) (st st1 : Main.State)
        (body : Main.UploadBody) (rs : list Main.Request)
        (Hup : Main.upload_pdf env file st = (Returned body, st1))
        (Hclean : Forall Trace.cleanup_returns rs)
        (Hkeep : Forall Trace.keeps_document (fst (Main.serve_all rs st1))) :
  Forall (Trace.ask_reports (Main.document_info body)) (fst (Main.serve_all rs st1)) /\
  Main.current_document (Main.get_status (snd (Main.serve_all rs st1)))
    = Some (Main.document_info body).
Proof.
  assert (Hst : Main.current_document_info st1 = Some (Main.document_info body)).
  { apply upload_success_inv in Hup.
    destruct Hup as (emb & name & content & documents & docs & index &
                     _ & _ & _ & _ & _ & _ & _ & _ & Hbody & _ & Hinfo & _).
    now rewrite Hinfo, Hbody. }
  clear Hup. cbn [Main.get_status Main.current_document].
  revert st1 Hst Hkeep. generalize (Main.document_info body) as info.
  intro info. induction rs as [|r rs IH]; intros st1 Hst Hkeep; simpl in *.
  - split; [constructor | exact Hst].
  - destruct (Main.serve r st1) as [a st2] eqn:Hr.
    destruct (Main.serve_all rs st2) as [al st3] eqn:Hrs.
    simpl in *. inversion Hkeep as [|? ? Ha Hal]; subst.
    inversion Hclean as [|? ? Hc Hcl]; subst.
    destruct (@serve_keeps_document r st1 st2 a info Hr Hst Ha Hc) as [Hrep Hst2].
    specialize (IH Hcl st2 Hst2). rewrite Hrs in IH. simpl in IH.
    destruct (IH Hal) as [IH1 IH2].
    split; [constructor; assumption | exact IH2].
Qed.

Lemma answers_carry_the_loaded_document_witness :
  Forall (Trace.ask_reports
            (Main.document_info
               {| Main.message := "PDF 'paper.pdf' uploaded and processed successfully";
                  Main.document_info :=
                    {| Main.info_filename := "paper.pdf"; Main.num_pages := 2;
                       Main.num_chunks := 2; Main.total_characters := 21 |} |}))
         (fst (Main.serve_all Fixture.while_loaded Sample.main_ready)) /\
  Main.current_document
    (Main.get_status (snd (Main.serve_all Fixture.while_loaded Sample.main_ready)))
  = Some {| Main.info_filename := "paper.pdf"; Main.num_pages := 2;
            Main.num_chunks := 2; Main.total_characters := 21 |}.
Proof.
  apply (@answers_carry_the_loaded_document Fixture.good_upload (Sample.pdf "paper.pdf")
           Sample.main_start Sample.main_ready _ Fixture.while_loaded eq_refl).
  - repeat constructor.
  - simpl. repeat constructor.
Defined.

(** X12.  The chain is never called before a document is in: from an EMPTY
    Session, whatever requests are served, as long as no upload succeeds and
    none fails in its [os.unlink] of line 130, the record of chain calls does
    not grow. *)
Theorem chain_is_not_called_before_an_upload
        (rs : list Main.Request) (st : Main.State)
        (Hempty : Spec.EMPTY st)
        (Hclean : Forall Trace.cleanup_returns rs)
        (Hno : Forall Spec.no_successful_upload (fst (Main.serve_all rs st))) :
  Main.chain_queries (snd (Main.serve_all rs st)) = Main.chain_queries st.
Proof.
  destruct (@empty_until_upload rs st Hempty Hno (or_introl Hclean)) as (_ & _ & H).
  exact H.
Qed.

Lemma chain_is_not_called_before_an_upload_witness :
  Main.chain_queries (snd (Main.serve_all Sample.after_reset Sample.main_start))
  = Main.chain_queries Sample.main_start.
Proof.
  apply (@chain_is_not_called_before_an_upload Sample.after_reset Sample.main_start).
  - reflexivity.
  - repeat constructor.
  - simpl. repeat constructor.
Defined.

(* ------------------------------------------------------------------ *)
(** ** More on [app.py] *)

Lemma exists_file_create_other (p q : str) (fs : Files) :
  exists_file p fs = true -> exists_file p (create_file q fs) = true.
Proof.
  intro H. unfold create_file. destruct (exists_file q fs); [exact H|].
  unfold exists_file in *. simpl. rewrite H. apply orb_true_r.
Qed.

(** The three ways out of the upload of [app.py]: [open] raises and nothing
    changed; a later call raises and only the file was created; every call
    returns and the chain is stored too. *)
Lemma app_upload_cases (env : App.UploadEnv) (file : UploadFile)
      (st st' : App.State) (r : App.Response str) :
  App.upload_pdf env file st = (r, st') ->
  (exists e, App.open_wb env ("/tmp/" ++ filename file) = Raised e /\
             r = App.JSONResponse 500 (StrOf e) /\ st' = st) \/
  (App.open_wb env ("/tmp/" ++ filename file) = Returned tt /\
   ((exists e, r = App.JSONResponse 500 (StrOf e) /\
               st' = App.set_tmp (create_file ("/tmp/" ++ filename file) (App.tmp st)) st) \/
    (exists chain,
        r = App.Body "PDF uploaded and processed successfully." /\
        return_source_documents chain = false /\
        st' = App.set_qa_chain (Some chain)
                (App.set_tmp (create_file ("/tmp/" ++ filename file) (App.tmp st)) st)))).
Proof.
  unfold App.upload_pdf. intro H.
  cbv [App.upload_try bind call modify get ret raise] in H.
  run_app H; inversion H; subst;
    repeat match goal with u : unit |- _ => destruct u end;
    first [ left; eexists; repeat split; reflexivity
          | right; split; [reflexivity|];
            first [ left; eexists; split; reflexivity
                  | right; eexists; repeat split; reflexivity ] ].
Qed.

(** X13.  The upload of [app.py] answers 200 or 500, never 400; when it
    answers 500 the stored chain is the one stored before, and when it
    answers 200 a chain is stored that does not return source documents.
    The API key and the record of chain calls are never changed. *)
Theorem app_upload_status_and_atomicity
        (env : App.UploadEnv) (file : UploadFile) (st : App.State) :
  (App.status_of (fst (App.upload_pdf env file st)) = 200 \/
   App.status_of (fst (App.upload_pdf env file st)) = 500)%Z /\
  (App.status_of (fst (App.upload_pdf env file st)) = 500%Z ->
   App.qa_chain (snd (App.upload_pdf env file st)) = App.qa_chain st) /\
  (App.status_of (fst (App.upload_pdf env file st)) = 200%Z ->
   exists chain, App.qa_chain (snd (App.upload_pdf env file st)) = Some chain /\
                 return_source_documents chain = false) /\
  App.GROQ_API_KEY (snd (App.upload_pdf env file st)) = App.GROQ_API_KEY st /\
  App.chain_queries (snd (App.upload_pdf env file st)) = App.chain_queries st.
Proof.
  destruct (App.upload_pdf env file st) as [r st'] eqn:H. cbn [fst snd].
  apply app_upload_cases in H.
  destruct H as [(e & _ & Hr & Hs) | (_ & [(e & Hr & Hs) | (chain & Hr & Hc & Hs)])];
    subst r st'; cbn; repeat split; auto; try (intro; discriminate).
  intros _. now exists chain.
Qed.

Lemma app_upload_status_and_atomicity_witness :
  App.qa_chain
    (snd (App.upload_pdf
            {| App.open_wb := fun _ => Returned tt;
               App.file_read := Returned "%PDF-1.4";
               App.f_write := fun _ => Returned tt;
               App.PyPDFLoader_load := fun _ => Raised (Exception "not a PDF");
               App.split_documents := fun l => Returned l;
               App.HuggingFaceEmbeddings_init := Returned Sample.by_length;
               App.FAISS_from_documents := Retrieval.indexer;
               App.ChatGroq_init := fun _ => Returned tt;
               App.RetrievalQA_from_chain_type := fun _ => Returned tt |}
            (Sample.pdf "notes.txt") Sample.app_ready))
  = App.qa_chain Sample.app_ready.
Proof.
  apply (proj1 (proj2 (app_upload_status_and_atomicity _ _ _))).
  reflexivity.
Defined.

(** X14.  The upload of [app.py] only ever adds to [/tmp]: every file that
    was there is still there afterwards, and once [open] has returned, the
    file [/tmp/<filename>] is there too, whether the upload then succeeds or
    fails. *)
Theorem app_upload_keeps_every_file
        (env : App.UploadEnv) (file : UploadFile) (st : App.State) (p : str)
        (Hp : exists_file p (App.tmp st) = true \/
              (p = "/tmp/" ++ filename file /\ App.open_wb env p = Returned tt)) :
  exists_file p (App.tmp (snd (App.upload_pdf env file st))) = true.
Proof.
  destruct (App.upload_pdf env file st) as [r st'] eqn:H. cbn [snd].
  apply app_upload_cases in H.
  destruct Hp as [Hp | (Hp & Ho)].
  - destruct H as [(e & _ & _ & Hs) | (_ & [(e & _ & Hs) | (chain & _ & _ & Hs)])];
      subst st'; cbn [App.tmp App.set_tmp App.set_qa_chain];
      first [exact Hp | now apply exists_file_create_other].
  - subst p.
    destruct H as [(e & He & _ & _) | (_ & [(e & _ & Hs) | (chain & _ & _ & Hs)])];
      [congruence
      | subst st'; cbn [App.tmp App.set_tmp App.set_qa_chain]; apply exists_file_create ..].
Qed.

Lemma app_upload_keeps_every_file_witness :
  exists_file "/tmp/paper.pdf"
    (App.tmp (snd (App.upload_pdf Sample.app_upload (Sample.pdf "paper.pdf")
                     Sample.app_ready))) = true.
Proof.
  exact (@app_upload_keeps_every_file Sample.app_upload (Sample.pdf "paper.pdf")
           Sample.app_ready "/tmp/paper.pdf" (or_introl eq_refl)).
Defined.

(** X15.  An ask of [app.py] answers 400 exactly when no chain is stored;
    otherwise the chain is run once with the question as it came, blank or
    not, and the answer is 200 or 500 as the chain returns or raises.  The
    stored chain and the files are never changed. *)
Theorem app_ask_status_codes (env : App.AskEnv) (q : str) (st : App.State) :
  (App.status_of (fst (App.ask_question env q st)) = 400%Z <-> App.qa_chain st = None) /\
  (App.status_of (fst (App.ask_question env q st)) = 200%Z <->
   exists chain a, App.qa_chain st = Some chain /\
                   App.qa_chain_run env chain q = Returned a) /\
  (App.status_of (fst (App.ask_question env q st)) = 500%Z <->
   exists chain e, App.qa_chain st = Some chain /\
                   App.qa_chain_run env chain q = Raised e) /\
  App.qa_chain (snd (App.ask_question env q st)) = App.qa_chain st /\
  App.tmp (snd (App.ask_question env q st)) = App.tmp st /\
  App.chain_queries (snd (App.ask_question env q st))
    = match App.qa_chain st with
      | Some _ => q :: App.chain_queries st
      | None => App.chain_queries st
      end.
Proof.
  unfold App.ask_question.
  destruct (App.qa_chain st) as [chain|] eqn:Hc.
  - cbv [bind call modify]. destruct (App.qa_chain_run env chain q) as [a|e] eqn:Hr;
      cbn; repeat split; auto; try (intro; discriminate).
    + intros _. now exists chain, a.
    + intros (c & x & H1 & H2). inversion H1; subst. congruence.
    + intros (c & x & H1 & H2). inversion H1; subst. congruence.
    + intros _. now exists chain, e.
  - cbn. repeat split; auto; try (intro; discriminate);
      intros (c & x & H & _); discriminate.
Qed.

(* ------------------------------------------------------------------ *)
(** ** The extension test and the preview *)

Lemma lower_append (a b : str) : lower (a ++ b) = lower a ++ lower b.
Proof.
  induction a as [|c a IH]; simpl; [reflexivity | now rewrite IH].
Qed.

Lemma len_lower (s : str) : len (lower s) = len s.
Proof.
  unfold len. induction s as [|c s IH]; simpl; [reflexivity | now rewrite IH].
Qed.

Lemma substring_whole (s : str) : substring 0 (len s) s = s.
Proof.
  unfold len. induction s as [|c s IH]; simpl; [reflexivity | now rewrite IH].
Qed.

Lemma substring_after (a b : str) : substring (len a) (len b) (a ++ b) = b.
Proof.
  induction a as [|c a IH]; simpl.
  - apply substring_whole.
  - exact IH.
Qed.

Lemma substring_before (a b : str) : substring 0 (len a) (a ++ b) = a.
Proof.
  unfold len. induction a as [|c a IH]; simpl.
  - now destruct b.
  - now rewrite IH.
Qed.

Lemma substring_split (n : nat) (s : str) :
  n <= len s -> s = substring 0 n s ++ substring n (len s - n) s.
Proof.
  unfold len. revert s. induction n as [|n IH]; intros s Hn.
  - rewrite Nat.sub_0_r. destruct s; simpl; [reflexivity|].
    f_equal. symmetry. apply substring_whole.
  - destruct s as [|c s]; simpl in *; [lia|].
    f_equal. apply IH. lia.
Qed.

Lemma lower_substring (n m : nat) (s : str) :
  lower (substring n m s) = substring n m (lower s).
Proof.
  revert n m. induction s as [|c s IH]; intros n m.
  - destruct n, m; reflexivity.
  - destruct n as [|n]; simpl.
    + destruct m as [|m]; simpl; [reflexivity | now rewrite IH].
    + apply IH.
Qed.

Lemma endswith_append (a b : str) : endswith (a ++ b) b = true.
Proof.
  unfold endswith. rewrite len_append.
  replace (len a + len b - len b) with (len a) by lia.
  rewrite substring_after, String.eqb_refl.
  rewrite andb_true_r. apply Nat.leb_le. lia.
Qed.

(** X16.  The file-type test of [main.py] accepts exactly the names made of
    any stem (the empty one included) followed by four characters that
    lower-case to [.pdf]; so [.PDF] and [.Pdf] pass as well as [.pdf], and
    only for the other names is the upload answered with 400. *)
Theorem accepted_file_names (env : Main.UploadEnv) (file : UploadFile) (st : Main.State) :
  (endswith (lower (filename file)) ".pdf" = true <->
   exists stem ext, filename file = stem ++ ext /\ lower ext = ".pdf") /\
  (Trace.upload_status env file st <> 400%Z <->
   exists stem ext, filename file = stem ++ ext /\ lower ext = ".pdf").
Proof.
  assert (H : endswith (lower (filename file)) ".pdf" = true <->
              exists stem ext, filename file = stem ++ ext /\ lower ext = ".pdf").
  { split.
    - unfold endswith. rewrite len_lower. intro H.
      apply andb_true_iff in H. destruct H as [Hl He].
      apply Nat.leb_le in Hl. apply String.eqb_eq in He.
      change (len ".pdf") with 4 in *.
      exists (substring 0 (len (filename file) - 4) (filename file)),
             (substring (len (filename file) - 4) 4 (filename file)).
      split; [|now rewrite lower_substring].
      rewrite (@substring_split (len (filename file) - 4) (filename file)) at 1 by lia.
      do 2 f_equal. lia.
    - intros (stem & ext & Hf & He). rewrite Hf, lower_append, He.
      apply endswith_append. }
  split; [exact H|]. rewrite <- H. unfold Trace.upload_status.
  destruct (Main.upload_pdf env file st) as [o st'] eqn:Hu. cbn [fst].
  apply upload_outcome_cases in Hu.
  destruct Hu as [(Hn & Ho & _) | (Hn & [(_ & _ & Ho) | [(e & Ho) | (body & Ho & _)]])];
    subst o; rewrite Hn; cbn; split; congruence.
Qed.

Lemma accepted_file_names_witness :
  endswith (lower (filename (Sample.pdf "Report.PDF"))) ".pdf" = true.
Proof.
  apply (proj1 (accepted_file_names Fixture.good_upload (Sample.pdf "Report.PDF")
                  Sample.main_start)).
  exists "Report", ".PDF". split; reflexivity.
Defined.

(** X17.  The preview of a chunk keeps its first 200 characters; it has the
    length of the text when that is at most 200 and 203 characters
    otherwise, so for a text of 201 or 202 characters the preview is longer
    than the text it abbreviates. *)
Theorem preview_is_a_truncation (text : str) :
  slice_to 200 (Main.preview text) = slice_to 200 text /\
  len (Main.preview text) = (if (200 <? len text)%nat then 203 else len text) /\
  (len (Main.preview text) < len text <-> 203 < len text).
Proof.
  unfold Main.preview. destruct (Nat.ltb_spec 200 (len text)) as [H|H].
  - assert (Hl : len (slice_to 200 text) = 200)
      by (rewrite len_slice_to; lia).
    repeat split.
    + unfold slice_to at 1. rewrite <- Hl at 1. apply substring_before.
    + rewrite len_append, Hl. reflexivity.
    + rewrite len_append, Hl. change (len "...") with 3. lia.
    + rewrite len_append, Hl. change (len "...") with 3. lia.
  - repeat split; lia.
Qed.

Lemma app_ask_keeps_chain (env : App.AskEnv) (q : str) (st : App.State) :
  App.qa_chain (snd (App.ask_question env q st)) = App.qa_chain st.
Proof.
  unfold App.ask_question.
  destruct (App.qa_chain st) as [chain|] eqn:Hc; [|exact Hc].
  cbv [bind call modify]. destruct (App.qa_chain_run env chain q); exact Hc.
Qed.

(* ------------------------------------------------------------------ *)
(** ** Staying READY *)

Lemma serve_stays_ready (r : Main.Request) (st st' : Main.State) (a : Main.Reply) :
  Main.serve r st = (a, st') ->
  Spec.READY st ->
  Trace.not_a_reset a ->
  Spec.READY st' /\ Trace.ask_is_served a.
Proof.
  unfold Spec.READY.
  destruct r as [|env file|env q| |]; unfold Main.serve; intros H Hst Hk.
  - inversion H; subst. split; [exact Hst | exact I].
  - destruct (Main.upload_pdf env file st) as [o s1] eqn:Hu.
    inversion H; subst. split; [|exact I]. destruct o as [body|e].
    + apply upload_success_inv in Hu.
      destruct Hu as (emb & name & content & documents & docs & index &
                      _ & _ & _ & _ & _ & _ & _ & _ & _ & Hchain & _).
      now rewrite Hchain.
    + apply upload_failure_cases in Hu.
      destruct Hu as [Hu | (eu & chain & info & _ & _ & _ & _ & Hu)]; rewrite Hu;
        [exact Hst | reflexivity].
  - destruct (Main.ask_question env q st) as [o s1] eqn:Ha.
    inversion H; subst.
    destruct (ask_cases env q st)
      as [(Hc & _) | (chain & Hc & [(Hb & Hq) | [(Hb & e & He & Hq) | (Hb & r & body & Hr & Hq)]])].
    + rewrite Hc in Hst. discriminate.
    + rewrite Ha in Hq. inversion Hq; subst. split; [exact Hst | discriminate].
    + rewrite Ha in Hq. inversion Hq; subst. split; [exact Hst | discriminate].
    + rewrite Ha in Hq. inversion Hq; subst. split; [exact Hst | discriminate].
  - inversion H; subst. split; [exact Hst | exact I].
  - destruct (Main.reset_system st); inversion H; subst. contradiction.
Qed.

(** X18.  In [main.py] only a reset takes a document out: from a READY
    Session, whatever other requests are served (asks, uploads that succeed
    or fail, health and status calls), the Session stays READY and no ask is
    refused with the NotReadyError. *)
Theorem ready_until_reset
        (rs : list Main.Request) (st : Main.State)
        (Hready : Spec.READY st)
        (Hno : Forall Trace.not_a_reset (fst (Main.serve_all rs st))) :
  Spec.READY (snd (Main.serve_all rs st)) /\
  Forall Trace.ask_is_served (fst (Main.serve_all rs st)).
Proof.
  revert st Hready Hno. induction rs as [|r rs IH]; intros st Hready Hno; simpl in *.
  - split; [exact Hready | constructor].
  - destruct (Main.serve r st) as [a st1] eqn:Hr.
    destruct (Main.serve_all rs st1) as [al st2] eqn:Hrs.
    simpl in *. inversion Hno as [|? ? Ha Hal]; subst.
    destruct (@serve_stays_ready r st st1 a Hr Hready Ha) as [H1 Hs].
    specialize (IH st1 H1). rewrite Hrs in IH. simpl in IH.
    destruct (IH Hal) as [IH1 IH2].
    split; [exact IH1 | constructor; assumption].
Qed.

Lemma ready_until_reset_witness :
  Spec.READY (snd (Main.serve_all Fixture.while_loaded Sample.main_ready)) /\
  Forall Trace.ask_is_served (fst (Main.serve_all Fixture.while_loaded Sample.main_ready)).
Proof.
  apply (@ready_until_reset Fixture.while_loaded Sample.main_ready).
  - reflexivity.
  - simpl. repeat constructor.
Defined.

(** X19.  [app.py] has no way back to EMPTY: once a chain is stored, neither
    an upload (successful or failed) nor an ask removes it. *)
Theorem app_never_unloads
        (uenv : App.UploadEnv) (file : UploadFile) (aenv : App.AskEnv) (q : str)
        (st : App.State) (Hloaded : App.qa_chain st <> None) :
  App.qa_chain (snd (App.upload_pdf uenv file st)) <> None /\
  App.qa_chain (snd (App.ask_question aenv q st)) <> None.
Proof.
  split.
  - destruct (App.upload_pdf uenv file st) as [r st'] eqn:H. cbn [snd].
    apply app_upload_cases in H.
    destruct H as [(e & _ & _ & Hs) | (_ & [(e & _ & Hs) | (chain & _ & _ & Hs)])];
      subst st'; cbn [App.qa_chain App.set_tmp App.set_qa_chain];
      first [exact Hloaded | discriminate].
  - rewrite app_ask_keeps_chain. exact Hloaded.
Qed.

Lemma app_never_unloads_witness :
  App.qa_chain (snd (App.upload_pdf Sample.app_upload (Sample.pdf "paper.pdf")
                       Sample.app_ready)) <> None /\
  App.qa_chain (snd (App.ask_question Sample.app_ask "   " Sample.app_ready)) <> None.
Proof.
  apply (@app_never_unloads Sample.app_upload (Sample.pdf "paper.pdf") Sample.app_ask
           "   " Sample.app_ready).
  discriminate.
Defined.
